(** * scim_tool: pagination, bulk deletion and the command-line driver

    A shallow embedding of [scim_users_groups.py].

    The program is a sequence of blocking calls against the outside world
    (HTTP requests, [time.sleep], [print], [input], [sys.exit]).  Every
    function of the source becomes a computation in a small monad [M]:
    it reads the history of the process so far, emits the events it
    performs in order, and ends in an [Outcome].  The remote service is
    a function of the history and of the request, so stateful backends
    are covered.

    Conventions of the embedding:
    - Python integers are [Z]; the [--delay] float is a rational [Q];
      which lengths [time.sleep] accepts belongs to the platform and is
      part of the outside world, like the answers of the server;
    - a decoded JSON object is a record whose fields are [option]s
      ([None]: the key is absent), so [d.get(k, default)] is
      [get_default]; values that are present have the type the SCIM
      schema gives them;
    - a Python [dict] built by the program is an association list that
      keeps insertion order;
    - the [while] loop of [get_all_resources] is bounded by a fuel
      parameter and ends in [OutOfFuel] when the bound is reached. *)

From Stdlib Require Import List ZArith QArith String Ascii Bool Lia.
From Stdlib Require Import DecimalString.
Import ListNotations.

Local Open Scope Z_scope.
Local Open Scope string_scope.
Local Open Scope list_scope.

(** String concatenation, kept apart from [++] on lists. *)
Infix "+++" := String.append (at level 60, right associativity).

(** ** Python helpers *)

(** [d.get(key, default)] on an optional field. *)
Definition get_default {A : Type} (field : option A) (default : A) : A :=
  match field with
  | Some v => v
  | None => default
  end.

(** Truth value of an optional command-line string: [None] and the
    empty string are false. *)
Definition truthy (o : option string) : bool :=
  match o with
  | Some s => negb (s =? "")
  | None => false
  end.

(** [all([...])] over such values. *)
Definition all_truthy (l : list (option string)) : bool := forallb truthy l.

(** [str(n)] for an integer. *)
Definition str_of_Z (n : Z) : string := NilZero.string_of_int (Z.to_int n).

Definition slash : ascii := "/"%char.
Definition comma : ascii := ","%char.
Definition newline : string := String (ascii_of_nat 10) "".

(** [s.rstrip('/')] *)
Fixpoint rstrip_slash (s : string) : string :=
  match s with
  | EmptyString => EmptyString
  | String c t =>
      match rstrip_slash t with
      | EmptyString => if Ascii.eqb c slash then EmptyString else String c EmptyString
      | t' => String c t'
      end
  end.

(** [s.lower()] on ASCII letters. *)
Definition lower_ascii (c : ascii) : ascii :=
  let n := nat_of_ascii c in
  if ((65 <=? n) && (n <=? 90))%nat then ascii_of_nat (n + 32) else c.

Fixpoint lower (s : string) : string :=
  match s with
  | EmptyString => EmptyString
  | String c t => String (lower_ascii c) (lower t)
  end.

(** [s.split(',')] *)
Fixpoint split_comma (s : string) : list string :=
  match s with
  | EmptyString => [EmptyString]
  | String c t =>
      if Ascii.eqb c comma then EmptyString :: split_comma t
      else match split_comma t with
           | h :: r => String c h :: r
           | [] => [String c EmptyString]
           end
  end.

(** ** Data model *)

(** An exception of [requests.exceptions]: [str(e)] and, when the server
    answered, the text of [e.response]. *)
Record RequestException := mkRequestException {
  exc_str : string;
  exc_response_text : option string
}.

(** The outcome of one HTTP exchange followed by [raise_for_status()]
    (and [json()] where the body is read). *)
Inductive Response (A : Type) :=
| HttpError (e : RequestException)
| HttpOk (body : A).
Arguments HttpError {A} e.
Arguments HttpOk {A} body.

Definition is_ok {A : Type} (r : Response A) : bool :=
  match r with
  | HttpOk _ => true
  | HttpError _ => false
  end.

Record Name := mkName {
  givenName : option string;
  familyName : option string
}.

Record Email := mkEmail { email_value : option string }.

(** A SCIM User or Group record as the tool reads it. *)
Record Resource := mkResource {
  res_id : option string;
  userName : option string;
  name : option Name;
  active : option bool;
  emails : option (list Email);
  displayName : option string;
  lastModified : option string;     (* meta.lastModified *)
  externalId : option string
}.

(** ResourcePage, also the shape of the aggregated collection. *)
Record Page := mkPage {
  schemas : option (list string);
  totalResults : option Z;
  Resources : option (list Resource);
  itemsPerPage : option Z;
  startIndex : option Z
}.

(** JSON payloads of the mutating requests. *)
Inductive Payload :=
| UserPayload (email : string) (external_id : option string)
              (last_name first_name : string) (username : string)
| GroupPayload (display_name : string) (external_id : option string)
               (members : option (list string))
| PatchAddMember (user_id : string).

Definition Headers := list (string * string).

Inductive Request :=
| GET (url : string) (headers : Headers) (start_index count : Z)
| DELETE (url : string) (headers : Headers)
| POST (url : string) (headers : Headers) (json : Payload)
| PATCH (url : string) (headers : Headers) (json : Payload).

(** DeletionOutcome: a dict from identifier to success flag. *)
Definition Dict := list (string * bool).

(** [d[k] = v]: a key that is present keeps its position. *)
Fixpoint dict_set (d : Dict) (k : string) (v : bool) : Dict :=
  match d with
  | [] => [(k, v)]
  | (k', v') :: rest =>
      if k' =? k then (k', v) :: rest else (k', v') :: dict_set rest k v
  end.

Fixpoint dict_get (d : Dict) (k : string) : option bool :=
  match d with
  | [] => None
  | (k', v') :: rest => if k' =? k then Some v' else dict_get rest k
  end.

(** What [json.dumps] is applied to. *)
Inductive Dumped :=
| DumpPage (p : Page)
| DumpDict (d : Dict)
| DumpResource (r : Resource).

(** ** Events and the monad *)

Inductive Event :=
| EvGet (req : Request) (resp : Response Page)
| EvDelete (req : Request) (resp : Response unit)
| EvPost (req : Request) (resp : Response Resource)
| EvPatch (req : Request) (resp : Response unit)
| EvSleep (secs : Q)
| EvStderr (line : string)
| EvStdout (line : string)
| EvStdoutJson (v : Dumped)
| EvInput (prompt : string) (line : option string).

Definition History := list Event.

(** Python exceptions that nothing in the program catches. *)
Inductive PyExc :=
| ValueError
| OverflowError
| EOFError
| KeyError (key : string)
| IndexError.

(** The outside world.  Each answer may depend on everything the
    process did before. *)
Record World := mkWorld {
  on_get : History -> Request -> Response Page;
  on_delete : History -> Request -> Response unit;
  on_post : History -> Request -> Response Resource;
  on_patch : History -> Request -> Response unit;
  stdin : History -> option string;
  sleep_error : Q -> option PyExc   (* what [time.sleep] raises for a length *)
}.

Inductive Outcome (A : Type) :=
| Ret (a : A)              (* normal completion *)
| Exit (code : Z)          (* sys.exit(code) *)
| Raise (exc : PyExc)      (* uncaught exception *)
| OutOfFuel.               (* the loop bound was reached *)
Arguments Ret {A} a.
Arguments Exit {A} code.
Arguments Raise {A} exc.
Arguments OutOfFuel {A}.

(** A computation: from the history to an outcome and the events
    emitted, oldest first. *)
Definition M (A : Type) := History -> Outcome A * list Event.

Definition ret {A : Type} (a : A) : M A := fun _ => (Ret a, []).

Definition bind {A B : Type} (m : M A) (k : A -> M B) : M B :=
  fun h =>
    match m h with
    | (Ret a, es) => let (o, es') := k a (h ++ es) in (o, es ++ es')
    | (Exit c, es) => (Exit c, es)
    | (Raise x, es) => (Raise x, es)
    | (OutOfFuel, es) => (OutOfFuel, es)
    end.

Declare Scope prog_scope.
Delimit Scope prog_scope with prog.
Notation "x <- m ;; k" := (bind m (fun x => k))
  (at level 100, m at next level, right associativity) : prog_scope.
Notation "m ;; k" := (bind m (fun _ => k))
  (at level 100, right associativity) : prog_scope.
Local Open Scope prog_scope.

Definition emit (e : Event) : M unit := fun _ => (Ret tt, [e]).
Definition sys_exit {A : Type} (code : Z) : M A := fun _ => (Exit code, []).
Definition raise {A : Type} (x : PyExc) : M A := fun _ => (Raise x, []).
Definition out_of_fuel {A : Type} : M A := fun _ => (OutOfFuel, []).

Definition print (line : string) : M unit := emit (EvStdout line).
Definition print_stderr (line : string) : M unit := emit (EvStderr line).
Definition print_json (v : Dumped) : M unit := emit (EvStdoutJson v).

Section Program.

Variable world : World.

Definition requests_get (url : string) (headers : Headers) (start_index count : Z)
  : M (Response Page) :=
  fun h => let req := GET url headers start_index count in
           let resp := on_get world h req in
           (Ret resp, [EvGet req resp]).

Definition requests_delete (url : string) (headers : Headers) : M (Response unit) :=
  fun h => let req := DELETE url headers in
           let resp := on_delete world h req in
           (Ret resp, [EvDelete req resp]).

Definition requests_post (url : string) (headers : Headers) (json : Payload)
  : M (Response Resource) :=
  fun h => let req := POST url headers json in
           let resp := on_post world h req in
           (Ret resp, [EvPost req resp]).

Definition requests_patch (url : string) (headers : Headers) (json : Payload)
  : M (Response unit) :=
  fun h => let req := PATCH url headers json in
           let resp := on_patch world h req in
           (Ret resp, [EvPatch req resp]).

(** [time.sleep(secs)]: the pause, or the exception with which the
    platform refuses the length. *)
Definition time_sleep (secs : Q) : M unit :=
  match sleep_error world secs with
  | None => emit (EvSleep secs)
  | Some exc => raise exc
  end.

(** [input(prompt)]: the prompt is written to standard output, then a
    line is read; the event records both. *)
Definition input (prompt : string) : M string :=
  fun h => match stdin world h with
           | Some line => (Ret line, [EvInput prompt (Some line)])
           | None => (Raise EOFError, [EvInput prompt None])
           end.

(** ** Pager *)

Definition scim_url (base_url resource_type : string) : string :=
  rstrip_slash base_url +++ "/api/v2/scim/" +++ resource_type.

Definition get_headers (token : string) : Headers :=
  [("accept", "application/scim+json;charset=utf-8");
   ("Authorization", "Bearer " +++ token)].

(** Default arguments of [get_page]. *)
Definition default_start_index : Z := 1.
Definition default_count : Z := 1000.

Definition get_page (base_url token resource_type : string)
    (start_index count : Z) : M Page :=
  response <- requests_get (scim_url base_url resource_type)
                           (get_headers token) start_index count ;;
  match response with
  | HttpOk body => ret body
  | HttpError e =>
      print_stderr ("Error retrieving " +++ resource_type +++ ": " +++ exc_str e) ;;
      sys_exit 1
  end.

(** The [while current_index <= total_results] loop. *)
Fixpoint fetch_loop (fuel : nat) (base_url token resource_type : string)
    (total_results items_per_page : Z)
    (current_index : Z) (all_resources : list Resource) : M (list Resource) :=
  match fuel with
  | O => out_of_fuel
  | S fuel' =>
      if (current_index <=? total_results)%Z then
        print_stderr ("Fetching page starting at index "
                      +++ str_of_Z current_index +++ "...") ;;
        page <- get_page base_url token resource_type current_index default_count ;;
        fetch_loop fuel' base_url token resource_type total_results items_per_page
                   (current_index + items_per_page)
                   (all_resources ++ get_default (Resources page) [])
      else ret all_resources
  end.

Definition get_all_resources (fuel : nat) (base_url token resource_type : string)
  : M Page :=
  first_page <- get_page base_url token resource_type
                         default_start_index default_count ;;
  let total_results := get_default (totalResults first_page) 0 in
  let items_per_page := get_default (itemsPerPage first_page) 1000 in
  print_stderr ("Found " +++ str_of_Z total_results +++ " total " +++ resource_type
                +++ ", fetching all pages...") ;;
  let all_resources := get_default (Resources first_page) [] in
  let current_index := items_per_page + 1 in
  all_resources <- fetch_loop fuel base_url token resource_type
                              total_results items_per_page
                              current_index all_resources ;;
  ret {| schemas := Some (get_default (schemas first_page) []);
         totalResults := Some total_results;
         Resources := Some all_resources;
         itemsPerPage := Some (Z.of_nat (List.length all_resources));
         startIndex := Some 1 |}.

(** ** Bulk deleter *)

Definition delete_headers (token : string) : Headers :=
  [("accept", "*/*"); ("Authorization", "Bearer " +++ token)].

Definition delete_resource (base_url token resource_type resource_id : string)
  : M bool :=
  response <- requests_delete (scim_url base_url resource_type +++ "/" +++ resource_id)
                              (delete_headers token) ;;
  match response with
  | HttpOk _ => ret true
  | HttpError e =>
      print_stderr ("Error deleting " +++ resource_type +++ " " +++ resource_id
                    +++ ": " +++ exc_str e) ;;
      ret false
  end.

(** The body of [for i, resource_id in enumerate(resource_ids, 1)],
    from position [i] on. *)
Fixpoint delete_loop (base_url token resource_type : string) (delay : Q)
    (total : Z) (i : Z) (resource_ids : list string) (results : Dict) : M Dict :=
  match resource_ids with
  | [] => ret results
  | resource_id :: rest =>
      print_stderr ("Deleting " +++ resource_type +++ " " +++ str_of_Z i +++ "/"
                    +++ str_of_Z total +++ " (ID: " +++ resource_id +++ ")...") ;;
      success <- delete_resource base_url token resource_type resource_id ;;
      let results := dict_set results resource_id success in
      (if (i <? total)%Z then time_sleep delay else ret tt) ;;
      delete_loop base_url token resource_type delay total (i + 1) rest results
  end.

Definition default_delay : Q := 1 # 2.

Definition delete_resources (base_url token resource_type : string)
    (resource_ids : list string) (delay : Q) : M Dict :=
  let results := [] in
  let total := Z.of_nat (List.length resource_ids) in
  delete_loop base_url token resource_type delay total 1 resource_ids results.

(** ** Resource mutation operations *)

Definition json_headers (token : string) : Headers :=
  [("accept", "application/scim+json;charset=utf-8");
   ("Authorization", "Bearer " +++ token);
   ("Content-Type", "application/scim+json;charset=utf-8")].

Definition patch_headers (token : string) : Headers :=
  [("accept", "*/*");
   ("Authorization", "Bearer " +++ token);
   ("Content-Type", "application/scim+json;charset=utf-8")].

(** [if hasattr(e.response, 'text'): print(...)] *)
Definition print_response_text (e : RequestException) : M unit :=
  match exc_response_text e with
  | Some text => print_stderr ("Response: " +++ text)
  | None => ret tt
  end.

Definition create_user (base_url token username email first_name last_name : string)
    (external_id : option string) : M Resource :=
  let payload := UserPayload email external_id last_name first_name username in
  response <- requests_post (rstrip_slash base_url +++ "/api/v2/scim/Users")
                            (json_headers token) payload ;;
  match response with
  | HttpOk body => ret body
  | HttpError e =>
      print_stderr ("Error creating user: " +++ exc_str e) ;;
      print_response_text e ;;
      sys_exit 1
  end.

Definition create_group (base_url token display_name : string)
    (external_id : option string) (member_ids : option (list string)) : M Resource :=
  let members :=
    match member_ids with
    | Some (m :: ms) => Some (m :: ms)
    | _ => None
    end in
  let payload := GroupPayload display_name external_id members in
  response <- requests_post (rstrip_slash base_url +++ "/api/v2/scim/Groups")
                            (json_headers token) payload ;;
  match response with
  | HttpOk body => ret body
  | HttpError e =>
      print_stderr ("Error creating group: " +++ exc_str e) ;;
      print_response_text e ;;
      sys_exit 1
  end.

Definition add_user_to_group (base_url token group_id user_id : string) : M bool :=
  let payload := PatchAddMember user_id in
  response <- requests_patch (rstrip_slash base_url +++ "/api/v2/scim/Groups/" +++ group_id)
                             (patch_headers token) payload ;;
  match response with
  | HttpOk _ => ret true
  | HttpError e =>
      print_stderr ("Error adding user to group: " +++ exc_str e) ;;
      print_response_text e ;;
      ret false
  end.

(** ** Formatting *)

Definition str_of_bool (b : bool) : string := if b then "True" else "False".

Definition format_user (user : Resource) : M string :=
  let nm := get_default (name user) (mkName None None) in
  email <- match emails user with
           | None => ret "N/A"
           | Some [] => raise IndexError
           | Some (e :: _) =>
               match email_value e with
               | Some v => ret v
               | None => raise (KeyError "value")
               end
           end ;;
  ret ("Username: " +++ get_default (userName user) "N/A" +++ newline +++
       "ID: " +++ get_default (res_id user) "N/A" +++ newline +++
       "Name: " +++ get_default (givenName nm) "N/A" +++ " " +++
                    get_default (familyName nm) "N/A" +++ newline +++
       "Status: " +++ str_of_bool (get_default (active user) false) +++ newline +++
       "Email: " +++ email).

Definition format_group (group : Resource) : string :=
  "Display Name: " +++ get_default (displayName group) "N/A" +++ newline +++
  "ID: " +++ get_default (res_id group) "N/A" +++ newline +++
  "Last Modified: " +++ get_default (lastModified group) "N/A" +++ newline +++
  "External ID: " +++ get_default (externalId group) "N/A".

(** ** Command-line driver *)

Inductive Format := pretty | json.
Inductive ResourceType := Users | Groups.
Inductive Action := list_action | delete_action | create_action.

Definition type_str (t : ResourceType) : string :=
  match t with
  | Users => "Users"
  | Groups => "Groups"
  end.

(** [args.type[:-1]] *)
Definition type_singular (t : ResourceType) : string :=
  match t with
  | Users => "User"
  | Groups => "Group"
  end.

(** The namespace [parser.parse_args()] returns. *)
Record Args := mkArgs {
  url : string;
  token : string;
  format : Format;
  type : option ResourceType;
  action : Action;
  id : option string;
  delay : Q;
  username : option string;
  email : option string;
  first_name : option string;
  last_name : option string;
  display_name : option string;
  external_id : option string;
  members : option string;
  add_to_group : bool;
  user_id : option string;
  group_id : option string
}.

(** The string held by an option that a preceding test found present. *)
Definition the (o : option string) : string := get_default o "".

Definition dashes : string := "----------------------------------------".

(** [[resource['id'] for resource in resources['Resources']]] *)
Fixpoint resource_ids_of (resources : list Resource) : M (list string) :=
  match resources with
  | [] => ret []
  | resource :: rest =>
      match res_id resource with
      | Some i => ids <- resource_ids_of rest ;; ret (i :: ids)
      | None => raise (KeyError "id")
      end
  end.

(** [for resource in resources['Resources']: print(...)] *)
Fixpoint print_resources (t : ResourceType) (resources : list Resource) : M unit :=
  match resources with
  | [] => ret tt
  | resource :: rest =>
      match t with
      | Users => text <- format_user resource ;; print text
      | Groups => print (format_group resource)
      end ;;
      print dashes ;;
      print_resources t rest
  end.

(** [sum(1 for success in results.values() if success)] *)
Definition count_successful (results : Dict) : Z :=
  Z.of_nat (List.length (filter snd results)).

Definition main (fuel : nat) (args : Args) : M unit :=
  if add_to_group args then
    (* Handle adding user to group *)
    if negb (all_truthy [user_id args; group_id args]) then
      print "Error: --user-id and --group-id are required for adding user to group" ;;
      sys_exit 1
    else
      success <- add_user_to_group (url args) (token args)
                                   (the (group_id args)) (the (user_id args)) ;;
      (if success : bool then
         print ("Successfully added user " +++ the (user_id args)
                +++ " to group " +++ the (group_id args))
       else
         print ("Failed to add user " +++ the (user_id args)
                +++ " to group " +++ the (group_id args))) ;;
      sys_exit 0
  else
  match action args with
  | create_action =>
      if truthy (username args) then
        (* User creation *)
        if negb (all_truthy [email args; first_name args; last_name args]) then
          print "Error: email, first-name, and last-name are required for user creation" ;;
          sys_exit 1
        else
          user <- create_user (url args) (token args) (the (username args))
                              (the (email args)) (the (first_name args))
                              (the (last_name args)) (external_id args) ;;
          match format args with
          | json => print_json (DumpResource user)
          | pretty =>
              print "User created successfully:" ;;
              text <- format_user user ;;
              print text
          end ;;
          sys_exit 0
      else if truthy (display_name args) then
        (* Group creation *)
        let member_ids :=
          if truthy (members args) then Some (split_comma (the (members args)))
          else None in
        group <- create_group (url args) (token args) (the (display_name args))
                              (external_id args) member_ids ;;
        match format args with
        | json => print_json (DumpResource group)
        | pretty =>
            print "Group created successfully:" ;;
            print (format_group group)
        end ;;
        sys_exit 0
      else
        print "Error: For create action, either provide --username (for user) or --display-name (for group)" ;;
        sys_exit 1
  | act =>
      (* List and Delete operations *)
      match type args with
      | None =>
          print "Error: --type is required for list and delete operations" ;;
          sys_exit 1
      | Some t =>
          let is_delete := match act with delete_action => true | _ => false end in
          let is_list := match act with list_action => true | _ => false end in
          (if is_delete && negb (truthy (id args)) then
             confirm <- input ("No ID specified. This will delete ALL " +++ type_str t
                               +++ ". Are you sure? (yes/no): ") ;;
             if negb (lower confirm =? "yes") then
               print "Operation cancelled." ;;
               sys_exit 0
             else ret tt
           else ret tt) ;;
          if is_list || negb (truthy (id args)) then
            resources <- get_all_resources fuel (url args) (token args) (type_str t) ;;
            let items := get_default (Resources resources) [] in
            if is_delete then
              resource_ids <- resource_ids_of items ;;
              results <- delete_resources (url args) (token args) (type_str t)
                                          resource_ids (delay args) ;;
              let successful := count_successful results in
              print (newline +++ "Deletion Summary:") ;;
              print ("Successfully deleted: " +++ str_of_Z successful) ;;
              print ("Failed to delete: "
                     +++ str_of_Z (Z.of_nat (List.length results) - successful)) ;;
              match format args with
              | json => print_json (DumpDict results)
              | pretty => ret tt
              end
            else
              match format args with
              | json => print_json (DumpPage resources)
              | pretty =>
                  print ("Total " +++ type_str t +++ " found: "
                         +++ str_of_Z (Z.of_nat (List.length items)) +++ newline) ;;
                  print_resources t items
              end
          else
            (* Single resource deletion *)
            success <- delete_resource (url args) (token args) (type_str t)
                                       (the (id args)) ;;
            print (type_singular t +++ " " +++ the (id args) +++ " deletion: "
                   +++ (if success : bool then "successful" else "failed"))
      end
  end.

End Program.

(** The exit status the shell sees. *)
Definition exit_status {A : Type} (o : Outcome A) : option Z :=
  match o with
  | Ret _ => Some 0
  | Exit c => Some c
  | Raise _ => Some 1
  | OutOfFuel => None
  end.

(** * Observations on a run *)

Definition request_of (e : Event) : option Request :=
  match e with
  | EvGet r _ | EvDelete r _ | EvPost r _ | EvPatch r _ => Some r
  | _ => None
  end.

(** The HTTP calls of a run, in order. *)
Definition http_requests (es : list Event) : list Request :=
  flat_map (fun e => match request_of e with Some r => [r] | None => [] end) es.

(** The pages that listing requests delivered, in order. *)
Definition fetched_pages (es : list Event) : list Page :=
  flat_map (fun e => match e with EvGet _ (HttpOk p) => [p] | _ => [] end) es.

(** The pauses of a run, in order. *)
Definition sleeps (es : list Event) : list Q :=
  flat_map (fun e => match e with EvSleep d => [d] | _ => [] end) es.

Definition page_resources (p : Page) : list Resource :=
  get_default (Resources p) [].

Definition start_index_of (r : Request) : Z :=
  match r with GET _ _ s _ => s | _ => 0 end.


(** The listing request [get_page] sends for a start index, with the
    default count. *)
Definition page_request (base_url token resource_type : string) (start_index : Z)
  : Request :=
  GET (scim_url base_url resource_type) (get_headers token) start_index default_count.

(** The start indices 1, 1 + P, 1 + 2P, ... of [n] requests from [from]. *)
Definition strided_requests (base_url token resource_type : string)
    (from stride : Z) (n : nat) : list Request :=
  map (fun k => page_request base_url token resource_type (from + Z.of_nat k * stride))
      (seq 0 n).

(** Ceiling of [a / b] for a positive [b]. *)
Definition ceil_div (a b : Z) : Z := (a + b - 1) / b.

(** Every listing request is answered with a page. *)
Definition always_answers (world : World) : Prop :=
  forall h r, is_ok (on_get world h r) = true.

(** The progress line of one loop iteration of the pager. *)
Definition fetching_msg (i : Z) : Event :=
  EvStderr ("Fetching page starting at index " +++ str_of_Z i +++ "...").

(** The line announcing the advertised total. *)
Definition found_msg (total_results : Z) (resource_type : string) : Event :=
  EvStderr ("Found " +++ str_of_Z total_results +++ " total " +++ resource_type
            +++ ", fetching all pages...").

(** The total and the stride [get_all_resources] reads off the first page. *)
Definition advertised_total (first_page : Page) : Z :=
  get_default (totalResults first_page) 0.
Definition advertised_stride (first_page : Page) : Z :=
  get_default (itemsPerPage first_page) 1000.

(** The number of fetches for an advertised total [R] and stride [P]:
    the first page, then one per further stride needed to pass [R]. *)
Definition fetch_count (R P : Z) : nat := Z.to_nat (Z.max 1 (ceil_div R P)).

(** Each page delivered holds what is left of the total [R] from its
    start index on, up to [P] items. *)
Definition delivers_as_advertised (R P : Z) (es : list Event) : Prop :=
  forall r p, In (EvGet r (HttpOk p)) es ->
    Z.of_nat (List.length (page_resources p)) = Z.min P (R - start_index_of r + 1).

(** ** Synthetic backends *)

Definition numbered (k : Z) : Resource :=
  {| res_id := Some (str_of_Z k); userName := None; name := None; active := None;
     emails := None; displayName := None; lastModified := None; externalId := None |}.

Definition server_error : RequestException :=
  {| exc_str := "500 Server Error"; exc_response_text := Some "internal error" |}.

(** The check of [time.sleep] in CPython 3.11: the length, in
    nanoseconds rounded away from zero, has to fit a signed 64-bit integer
    ([OverflowError] otherwise), and then must not be negative
    ([ValueError]).  The length is taken as an exact rational. *)
Definition nanoseconds (secs : Q) : Z :=
  let n := (Qnum secs * 1000000000)%Z in
  let d := Z.pos (Qden secs) in
  if (0 <=? n)%Z then ((n + d - 1) / d)%Z else (- ((- n + d - 1) / d))%Z.

Definition cpython_sleep_error (secs : Q) : option PyExc :=
  let ns := nanoseconds secs in
  if ((ns <? - 2 ^ 63) || (2 ^ 63 <=? ns))%Z then Some OverflowError
  else if (ns <? 0)%Z then Some ValueError
  else None.

(** A backend that holds the resources numbered 1 to [R] and serves at
    most [P] of them per page; a listing request whose start index
    satisfies [bad_page], a deletion whose URL satisfies [bad_delete] and,
    when [mutations_fail], every POST and PATCH are answered with a
    server error. *)
Definition synthetic (R P : Z) (bad_page : Z -> bool) (bad_delete : string -> bool)
    (mutations_fail : bool) : World :=
  {| on_get := fun _ r =>
       let s := start_index_of r in
       if bad_page s then HttpError server_error
       else HttpOk {| schemas := Some ["urn:ietf:params:scim:api:messages:2.0:ListResponse"];
                      totalResults := Some R;
                      Resources := Some (map (fun k => numbered (s + Z.of_nat k))
                                             (seq 0 (Z.to_nat (Z.min P (R - s + 1)))));
                      itemsPerPage := Some P;
                      startIndex := Some s |};
     on_delete := fun _ r =>
       match r with
       | DELETE u _ => if bad_delete u then HttpError server_error else HttpOk tt
       | _ => HttpOk tt
       end;
     on_post := fun _ _ =>
       if mutations_fail then HttpError server_error else HttpOk (numbered 1);
     on_patch := fun _ _ =>
       if mutations_fail then HttpError server_error else HttpOk tt;
     stdin := fun _ => None;
     sleep_error := cpython_sleep_error |}.

Definition never {A : Type} (_ : A) : bool := false.

Definition paginated_backend (R P : Z) : World := synthetic R P never never false.

Definition demo_url : string := "https://scim.example/".
Definition demo_token : string := "secret".

(** ** Observations on bulk deletion *)

(** The request [delete_resource] sends for an identifier. *)
Definition delete_request (base_url token resource_type resource_id : string)
  : Request :=
  DELETE (scim_url base_url resource_type +++ "/" +++ resource_id)
         (delete_headers token).

Definition deleting_msg (resource_type : string) (i total : Z) (resource_id : string)
  : Event :=
  EvStderr ("Deleting " +++ resource_type +++ " " +++ str_of_Z i +++ "/"
            +++ str_of_Z total +++ " (ID: " +++ resource_id +++ ")...").

(** What [delete_resource] logs for an answer. *)
Definition error_line (resource_type resource_id : string) (r : Response unit)
  : list Event :=
  match r with
  | HttpOk _ => []
  | HttpError e =>
      [EvStderr ("Error deleting " +++ resource_type +++ " " +++ resource_id
                 +++ ": " +++ exc_str e)]
  end.

(** The events of a bulk deletion of [ids], from position [i] on, when the
    backend's answers are [resps]. *)
Fixpoint deletion_trace (base_url token resource_type : string) (delay : Q)
    (total i : Z) (ids : list string) (resps : list (Response unit)) : list Event :=
  match ids, resps with
  | id :: ids', r :: resps' =>
      deleting_msg resource_type i total id
      :: EvDelete (delete_request base_url token resource_type id) r
      :: error_line resource_type id r
      ++ (if (i <? total)%Z then [EvSleep delay] else [])
      ++ deletion_trace base_url token resource_type delay total (i + 1) ids' resps'
  | _, _ => []
  end.

(** The mapping after recording the answers [resps] for [ids] in order. *)
Definition record_outcomes (d : Dict) (ids : list string)
    (resps : list (Response unit)) : Dict :=
  fold_left (fun d p => dict_set d (fst p) (is_ok (snd p))) (combine ids resps) d.

Definition keys (d : Dict) : list string := map fst d.

Definition has_key (ks : list string) (k : string) : bool :=
  existsb (fun k' => k' =? k) ks.

(** The identifiers of a list without repetition, each at the place of
    its first occurrence. *)
Fixpoint dedup (ids : list string) : list string :=
  match ids with
  | [] => []
  | x :: rest => x :: filter (fun y => negb (y =? x)) (dedup rest)
  end.

(** The answers to the deletions of a run, in order. *)
Definition delete_responses (es : list Event) : list (Response unit) :=
  flat_map (fun e => match e with EvDelete _ r => [r] | _ => [] end) es.

(** Deletions and pauses of a run, in order. *)
Definition schedule (es : list Event) : list (Request + Q) :=
  flat_map (fun e => match e with
                     | EvDelete r _ => [inl r]
                     | EvSleep d => [inr d]
                     | _ => []
                     end) es.

(** A pause after each step but the last. *)
Fixpoint pause_between (d : Q) (steps : list Request) : list (Request + Q) :=
  match steps with
  | [] => []
  | [x] => [inl x]
  | x :: rest => inl x :: inr d :: pause_between d rest
  end.

(** A pause before each step but the last. *)
Fixpoint pause_before_all_but_last (d : Q) (steps : list Request)
  : list (Request + Q) :=
  match steps with
  | [] => []
  | [x] => [inl x]
  | x :: rest => inr d :: inl x :: pause_before_all_but_last d rest
  end.

(** [time.sleep] accepts the delay, or no pause is due. *)
Definition delay_accepted (world : World) (delay : Q) (ids : list string) : Prop :=
  sleep_error world delay = None \/ (List.length ids <= 1)%nat.

(** ** Observations on the mutation operations *)

Definition create_user_request (base_url token username email first_name last_name : string)
    (external_id : option string) : Request :=
  POST (rstrip_slash base_url +++ "/api/v2/scim/Users") (json_headers token)
       (UserPayload email external_id last_name first_name username).

Definition create_group_request (base_url token display_name : string)
    (external_id : option string) (member_ids : option (list string)) : Request :=
  POST (rstrip_slash base_url +++ "/api/v2/scim/Groups") (json_headers token)
       (GroupPayload display_name external_id
          match member_ids with
          | Some (m :: ms) => Some (m :: ms)
          | _ => None
          end).

Definition add_member_request (base_url token group_id user_id : string) : Request :=
  PATCH (rstrip_slash base_url +++ "/api/v2/scim/Groups/" +++ group_id)
        (patch_headers token) (PatchAddMember user_id).

(** What the mutation operations log after the error line: the text of
    the server's answer, when there is one. *)
Definition response_text_line (e : RequestException) : list Event :=
  match exc_response_text e with
  | Some text => [EvStderr ("Response: " +++ text)]
  | None => []
  end.

(** The member identifiers [main] passes to [create_group]. *)
Definition member_ids_of (args : Args) : option (list string) :=
  if truthy (members args) then Some (split_comma (the (members args))) else None.

(** An invocation that selects the add-to-group mode together with the
    create action and an incomplete user. *)
Definition mixed_invocation : Args :=
  {| url := demo_url; token := demo_token; format := pretty; type := None;
     action := create_action; id := None; delay := default_delay;
     username := Some "bob"; email := None; first_name := None; last_name := None;
     display_name := None; external_id := None; members := None;
     add_to_group := true; user_id := Some "u1"; group_id := Some "g1" |}.

(** The same invocation without the add-to-group flag. *)
Definition incomplete_user_invocation : Args :=
  {| url := demo_url; token := demo_token; format := pretty; type := None;
     action := create_action; id := None; delay := default_delay;
     username := Some "bob"; email := None; first_name := None; last_name := None;
     display_name := None; external_id := None; members := None;
     add_to_group := false; user_id := Some "u1"; group_id := Some "g1" |}.

Definition create_user_invocation : Args :=
  {| url := demo_url; token := demo_token; format := pretty; type := None;
     action := create_action; id := None; delay := default_delay;
     username := Some "bob"; email := Some "bob@example.org";
     first_name := Some "Bob"; last_name := Some "Builder";
     display_name := None; external_id := None; members := None;
     add_to_group := false; user_id := None; group_id := None |}.

(** Adding user [u1] to group [g1]. *)
Definition add_member_invocation : Args :=
  {| url := demo_url; token := demo_token; format := pretty; type := None;
     action := list_action; id := None; delay := default_delay;
     username := None; email := None; first_name := None; last_name := None;
     display_name := None; external_id := None; members := None;
     add_to_group := true; user_id := Some "u1"; group_id := Some "g1" |}.

Definition validation_error : Event :=
  EvStdout "Error: email, first-name, and last-name are required for user creation".

(** A backend on which every POST and PATCH fails. *)
Definition read_only_backend : World := synthetic 0 1000 never never true.

(** ** HTTP answers before [raise_for_status] *)

(** An answer of the server as [requests] hands it over: its status
    code, the [HTTPError] that [raise_for_status()] builds for it when it
    raises, and what [json()] gives: the decoded body, or the exception
    for a body that is not JSON (a [RequestException] from requests 2.27
    on). *)
Record Reply (A : Type) := mkReply {
  status_code : Z;
  http_error : RequestException;
  decoded_body : RequestException + A
}.
Arguments mkReply {A}.
Arguments status_code {A}.
Arguments http_error {A}.
Arguments decoded_body {A}.

(** One call of [requests]: no answer at all (connection refused,
    timeout, ...), or an answer. *)
Inductive Exchange (A : Type) :=
| NoReply (e : RequestException)
| Replied (r : Reply A).
Arguments NoReply {A} e.
Arguments Replied {A} r.

(** [raise_for_status()] raises for the client and server error codes,
    400 to 599, and for no other. *)
Definition raises_for_status (status : Z) : bool :=
  ((400 <=? status) && (status <? 600))%Z.

Definition is_2xx (status : Z) : bool :=
  ((200 <=? status) && (status <? 300))%Z.

(** [response = requests.get(...); response.raise_for_status();
    return response.json()], as [get_page] sees it. *)
Definition checked_json {A : Type} (x : Exchange A) : Response A :=
  match x with
  | NoReply e => HttpError e
  | Replied r =>
      if raises_for_status (status_code r) then HttpError (http_error r)
      else match decoded_body r with
           | inr v => HttpOk v
           | inl e => HttpError e
           end
  end.

(** The exchanges on which [get_page] gets no page: no answer, a status
    from 400 to 599, or a body that is not JSON. *)
Definition failed_exchange {A : Type} (x : Exchange A) : bool :=
  match x with
  | NoReply _ => true
  | Replied r =>
      raises_for_status (status_code r)
      || match decoded_body r with inl _ => true | inr _ => false end
  end.

(** The world [w] with its listing endpoint given by raw answers. *)
Definition with_raw_get (w : World) (raw : History -> Request -> Exchange Page)
  : World :=
  {| on_get := fun h r => checked_json (raw h r);
     on_delete := on_delete w; on_post := on_post w; on_patch := on_patch w;
     stdin := stdin w; sleep_error := sleep_error w |}.

(** A server that answers every listing request with status 300 and a
    JSON body listing two records. *)
Definition multiple_choices : History -> Request -> Exchange Page :=
  fun _ _ =>
    Replied {| status_code := 300;
               http_error := server_error;
               decoded_body :=
                 inr {| schemas := None; totalResults := Some 2;
                        Resources := Some [numbered 1; numbered 2];
                        itemsPerPage := Some 2; startIndex := Some 1 |} |}.

(** A server that answers the second page with status 503. *)
Definition unavailable_at_1001 : History -> Request -> Exchange Page :=
  fun h r =>
    if (start_index_of r =? 1001)%Z then
      Replied {| status_code := 503; http_error := server_error;
                 decoded_body := inl server_error |}
    else
      Replied {| status_code := 200; http_error := server_error;
                 decoded_body :=
                   match on_get (paginated_backend 2500 1000) h r with
                   | HttpOk p => inr p
                   | HttpError e => inl e
                   end |}.

(** ** Further observations *)

Definition is_get (r : Request) : bool :=
  match r with GET _ _ _ _ => true | _ => false end.

(** Events a listing may perform: GET requests and progress lines. *)
Definition listing_event (e : Event) : bool :=
  match e with
  | EvGet r _ => is_get r
  | EvStderr _ => true
  | _ => false
  end.

(** Events that only write to standard output. *)
Definition stdout_event (e : Event) : bool :=
  match e with EvStdout _ | EvStdoutJson _ => true | _ => false end.

(** Events of a run that changes nothing on the backend and asks
    nothing of the operator. *)
Definition read_only_event (e : Event) : bool := listing_event e || stdout_event e.

(** Events that write to standard output: those, and the prompt of an
    [input]. *)
Definition writes_stdout (e : Event) : bool :=
  match e with
  | EvInput _ _ => true
  | _ => stdout_event e
  end.

(** What a run wrote to standard output, in order: the lines and
    documents printed and the prompts shown. *)
Definition stdout_of (es : list Event) : list Event := filter writes_stdout es.

(** The lines a run read from standard input. *)
Definition inputs_of (es : list Event) : list (option string) :=
  flat_map (fun e => match e with EvInput _ l => [l] | _ => [] end) es.

(** The identifiers of a list of resources, when each has one. *)
Fixpoint ids_of (resources : list Resource) : option (list string) :=
  match resources with
  | [] => Some []
  | r :: rest =>
      match res_id r, ids_of rest with
      | Some i, Some l => Some (i :: l)
      | _, _ => None
      end
  end.

(** The prompt of the delete-all confirmation. *)
Definition confirm_prompt (t : ResourceType) : string :=
  "No ID specified. This will delete ALL " +++ type_str t
  +++ ". Are you sure? (yes/no): ".






(** Whether a string ends with a slash. *)
Fixpoint ends_with_slash (s : string) : bool :=
  match s with
  | EmptyString => false
  | String c EmptyString => Ascii.eqb c slash
  | String _ t => ends_with_slash t
  end.

(** Whether a string contains a comma. *)
Fixpoint has_comma (s : string) : bool :=
  match s with
  | EmptyString => false
  | String c t => Ascii.eqb c comma || has_comma t
  end.

(** A user record whose list of emails is empty. *)
Definition user_without_email : Resource :=
  {| res_id := Some "u7"; userName := Some "bob"; name := None; active := Some true;
     emails := Some []; displayName := None; lastModified := None;
     externalId := None |}.

(** Deleting every user, and deleting user [2] alone. *)
Definition delete_all_invocation : Args :=
  {| url := demo_url; token := demo_token; format := pretty; type := Some Users;
     action := delete_action; id := None; delay := default_delay;
     username := None; email := None; first_name := None; last_name := None;
     display_name := None; external_id := None; members := None;
     add_to_group := false; user_id := None; group_id := None |}.

Definition delete_one_invocation : Args :=
  {| url := demo_url; token := demo_token; format := pretty; type := Some Users;
     action := delete_action; id := Some "2"; delay := default_delay;
     username := None; email := None; first_name := None; last_name := None;
     display_name := None; external_id := None; members := None;
     add_to_group := false; user_id := None; group_id := None |}.

Definition list_invocation (f : Format) : Args :=
  {| url := demo_url; token := demo_token; format := f; type := Some Groups;
     action := list_action; id := Some "2"; delay := default_delay;
     username := None; email := None; first_name := None; last_name := None;
     display_name := None; external_id := None; members := None;
     add_to_group := false; user_id := None; group_id := None |}.

Definition create_group_invocation : Args :=
  {| url := demo_url; token := demo_token; format := json; type := None;
     action := create_action; id := None; delay := default_delay;
     username := None; email := None; first_name := None; last_name := None;
     display_name := Some "staff"; external_id := None; members := Some "u1,u2,";
     add_to_group := false; user_id := None; group_id := None |}.

(** The synthetic backend with an operator who types [answer] at the
    prompt. *)
Definition with_answer (w : World) (answer : string) : World :=
  {| on_get := on_get w; on_delete := on_delete w; on_post := on_post w;
     on_patch := on_patch w; stdin := fun _ => Some answer;
     sleep_error := sleep_error w |}.


(** A backend whose single page lists a record without an [id] between
    two records that have one. *)
Definition anonymous_record : Resource :=
  {| res_id := None; userName := Some "ghost"; name := None; active := None;
     emails := None; displayName := None; lastModified := None; externalId := None |}.

Definition backend_with_anonymous : World :=
  {| on_get := fun _ _ =>
       HttpOk {| schemas := None; totalResults := Some 3;
                 Resources := Some [numbered 1; anonymous_record; numbered 3];
                 itemsPerPage := Some 3; startIndex := Some 1 |};
     on_delete := fun _ _ => HttpOk tt;
     on_post := fun _ _ => HttpOk user_without_email;
     on_patch := fun _ _ => HttpOk tt;
     stdin := fun _ => Some "yes";
     sleep_error := cpython_sleep_error |}.

#[local] Arguments String.append : simpl never.
#[local] Arguments str_of_Z : simpl never.

(** * Running the pager *)

Section PagerFacts.

Variable world : World.
Variables base_url token resource_type : string.

Lemma get_page_run start_index h :
  get_page world base_url token resource_type start_index default_count h =
  match on_get world h (page_request base_url token resource_type start_index) with
  | HttpOk body => (Ret body, [EvGet (page_request base_url token resource_type start_index) (HttpOk body)])
  | HttpError e =>
      (Exit 1, [EvGet (page_request base_url token resource_type start_index) (HttpError e);
                EvStderr ("Error retrieving " +++ resource_type +++ ": " +++ exc_str e)])
  end.
Proof.
  unfold get_page, bind, requests_get, page_request.
  destruct (on_get world h _); reflexivity.
Qed.

Lemma fetch_loop_step fuel R P cur acc h :
  cur <= R ->
  fetch_loop world (S fuel) base_url token resource_type R P cur acc h =
  let h1 := h ++ [fetching_msg cur] in
  match on_get world h1 (page_request base_url token resource_type cur) with
  | HttpOk page =>
      let (o, es) := fetch_loop world fuel base_url token resource_type R P
                       (cur + P) (acc ++ page_resources page)
                       (h1 ++ [EvGet (page_request base_url token resource_type cur) (HttpOk page)]) in
      (o, fetching_msg cur :: EvGet (page_request base_url token resource_type cur) (HttpOk page) :: es)
  | HttpError e =>
      (Exit 1, [fetching_msg cur; EvGet (page_request base_url token resource_type cur) (HttpError e);
                EvStderr ("Error retrieving " +++ resource_type +++ ": " +++ exc_str e)])
  end.
Proof.
  intros Hle. apply Z.leb_le in Hle.
  cbn [fetch_loop]. rewrite Hle.
  unfold bind at 1. cbn [print_stderr emit].
  unfold bind at 1. rewrite get_page_run.
  cbv zeta. destruct (on_get world _ _) as [e | page]; [reflexivity |].
  fold (page_resources page).
  destruct (fetch_loop world fuel _ _ _ _ _ _ _ _) as [o es]. reflexivity.
Qed.

Lemma fetch_loop_done fuel R P cur acc h :
  R < cur ->
  fetch_loop world (S fuel) base_url token resource_type R P cur acc h = (Ret acc, []).
Proof.
  intros Hlt. apply Z.leb_gt in Hlt. cbn [fetch_loop]. rewrite Hlt. reflexivity.
Qed.

Lemma strided_requests_S from stride n :
  strided_requests base_url token resource_type from stride (S n) =
  page_request base_url token resource_type from
  :: strided_requests base_url token resource_type (from + stride) stride n.
Proof.
  unfold strided_requests. cbn [seq map]. f_equal.
  - f_equal. lia.
  - rewrite <- seq_shift, map_map. apply map_ext. intros k. f_equal. lia.
Qed.

Lemma strided_requests_length from stride n :
  List.length (strided_requests base_url token resource_type from stride n) = n.
Proof. unfold strided_requests. now rewrite length_map, length_seq. Qed.

(** Case analysis on one iteration of the loop, in a hypothesis
    [H : fetch_loop ... (S fuel) ... = (o, es)]. *)
Ltac loop_iteration H R cur :=
  destruct (Z.leb_spec cur R) as [Hin | Hout];
  [ rewrite fetch_loop_step in H by exact Hin; cbv zeta in H
  | rewrite fetch_loop_done in H by exact Hout; injection H as <- <- ].


(** A loop that returns has appended every page it fetched, and every
    fetch was answered. *)
Lemma fetch_loop_ret fuel R P : forall cur acc h all es,
  fetch_loop world fuel base_url token resource_type R P cur acc h = (Ret all, es) ->
  all = acc ++ List.concat (map page_resources (fetched_pages es)) /\
  List.length (fetched_pages es) = List.length (http_requests es).
Proof.
  induction fuel as [| fuel IH]; intros cur acc h all es H.
  - discriminate H.
  - loop_iteration H R cur.
    + destruct (on_get world _ _) as [e | page]; [discriminate H |].
      destruct (fetch_loop world fuel _ _ _ _ _ _ _ _) as [o' es'] eqn:E.
      injection H as -> <-.
      destruct (IH _ _ _ _ _ E) as (Hall & Hlen).
      split.
      * rewrite Hall. cbn. now rewrite <- app_assoc.
      * cbn. unfold fetched_pages, http_requests in Hlen. now rewrite Hlen.
    + split; [now rewrite app_nil_r | reflexivity].
Qed.

(** A fetch that fails ends the loop with exit status 1. *)
Lemma fetch_loop_error fuel R P : forall cur acc h o es r e,
  fetch_loop world fuel base_url token resource_type R P cur acc h = (o, es) ->
  In (EvGet r (HttpError e)) es -> o = Exit 1.
Proof.
  induction fuel as [| fuel IH]; intros cur acc h o es r e H Hin'.
  - injection H as <- <-. destruct Hin'.
  - loop_iteration H R cur.
    + destruct (on_get world _ _) as [e' | page].
      * now injection H as <- <-.
      * destruct (fetch_loop world fuel _ _ _ _ _ _ _ _) as [o' es'] eqn:E.
        injection H as <- <-.
        destruct Hin' as [Hd | [Hd | Hin']]; try discriminate Hd.
        eapply IH; eassumption.
    + destruct Hin'.
Qed.

Lemma get_all_resources_run fuel h :
  get_all_resources world fuel base_url token resource_type h =
  match on_get world h (page_request base_url token resource_type 1) with
  | HttpError e =>
      (Exit 1, [EvGet (page_request base_url token resource_type 1) (HttpError e);
                EvStderr ("Error retrieving " +++ resource_type +++ ": " +++ exc_str e)])
  | HttpOk first =>
      let R := advertised_total first in
      let P := advertised_stride first in
      let pre := [EvGet (page_request base_url token resource_type 1) (HttpOk first);
                  found_msg R resource_type] in
      match fetch_loop world fuel base_url token resource_type R P (P + 1)
                       (page_resources first) (h ++ pre) with
      | (Ret all, es) =>
          (Ret {| schemas := Some (get_default (schemas first) []);
                  totalResults := Some R;
                  Resources := Some all;
                  itemsPerPage := Some (Z.of_nat (List.length all));
                  startIndex := Some 1 |}, pre ++ es)
      | (Exit c, es) => (Exit c, pre ++ es)
      | (Raise x, es) => (Raise x, pre ++ es)
      | (OutOfFuel, es) => (OutOfFuel, pre ++ es)
      end
  end.
Proof.
  unfold get_all_resources. unfold bind at 1.
  change default_start_index with 1. rewrite get_page_run.
  destruct (on_get world h _) as [e | first]; [reflexivity |].
  unfold bind at 1. cbn [print_stderr emit].
  unfold bind at 1. cbv zeta.
  fold (advertised_total first) (advertised_stride first) (page_resources first).
  rewrite <- app_assoc. cbn [app].
  destruct (fetch_loop world fuel _ _ _ _ _ _ _ _) as [[all | c | x |] es];
    cbn; rewrite ?app_nil_r; reflexivity.
Qed.

(** With a positive stride and a backend that answers, the loop ends
    after the [m] requests that stay within the total. *)
Lemma fetch_loop_terminates R P :
  always_answers world -> 0 < P ->
  forall (m fuel : nat) cur acc h,
    (m < fuel)%nat ->
    R < cur + Z.of_nat m * P ->
    (forall k : nat, (k < m)%nat -> cur + Z.of_nat k * P <= R) ->
    exists all es,
      fetch_loop world fuel base_url token resource_type R P cur acc h = (Ret all, es) /\
      http_requests es = strided_requests base_url token resource_type cur P m.
Proof.
  intros Hok HP. induction m as [| m IH]; intros fuel cur acc h Hfuel Hstop Hin.
  - destruct fuel as [| fuel]; [lia |].
    exists acc, []. split; [apply fetch_loop_done; lia | reflexivity].
  - destruct fuel as [| fuel]; [lia |].
    assert (Hcur : cur <= R) by (specialize (Hin 0%nat); lia).
    rewrite fetch_loop_step by exact Hcur. cbv zeta.
    pose proof (Hok (h ++ [fetching_msg cur])
                    (page_request base_url token resource_type cur)) as Hans.
    destruct (on_get world _ _) as [e | page]; [discriminate Hans |].
    destruct (IH fuel (cur + P) (acc ++ page_resources page)
                 ((h ++ [fetching_msg cur])
                  ++ [EvGet (page_request base_url token resource_type cur) (HttpOk page)]))
      as (all & es & Hrun & Hreq).
    + lia.
    + lia.
    + intros k Hk. specialize (Hin (S k)). lia.
    + rewrite Hrun. exists all. eexists. split; [reflexivity |].
      rewrite strided_requests_S. cbn. unfold http_requests in Hreq. now rewrite Hreq.
Qed.

(** With a stride that is not positive, a loop that is entered never
    leaves: whatever the bound, it is reached, after one fetch per unit. *)
Lemma fetch_loop_diverges R P :
  always_answers world -> P <= 0 ->
  forall fuel cur acc h,
    cur <= R ->
    exists es,
      fetch_loop world fuel base_url token resource_type R P cur acc h = (OutOfFuel, es) /\
      List.length (http_requests es) = fuel.
Proof.
  intros Hok HP. induction fuel as [| fuel IH]; intros cur acc h Hcur.
  - exists []. split; reflexivity.
  - rewrite fetch_loop_step by exact Hcur. cbv zeta.
    pose proof (Hok (h ++ [fetching_msg cur])
                    (page_request base_url token resource_type cur)) as Hans.
    destruct (on_get world _ _) as [e | page]; [discriminate Hans |].
    destruct (IH (cur + P) (acc ++ page_resources page)
                 ((h ++ [fetching_msg cur])
                  ++ [EvGet (page_request base_url token resource_type cur) (HttpOk page)]))
      as (es & Hrun & Hlen); [lia |].
    rewrite Hrun. eexists. split; [reflexivity |].
    cbn. unfold http_requests in Hlen. now rewrite Hlen.
Qed.

(** When each page holds what is left of the total, up to the stride,
    the loop returns exactly the advertised total. *)
Lemma fetch_loop_length fuel R P : forall cur acc h all es,
  fetch_loop world fuel base_url token resource_type R P cur acc h = (Ret all, es) ->
  (forall r p, In (EvGet r (HttpOk p)) es ->
     Z.of_nat (List.length (page_resources p)) = Z.min P (R - start_index_of r + 1)) ->
  Z.of_nat (List.length acc) = Z.min (cur - 1) R ->
  Z.of_nat (List.length all) = R.
Proof.
  induction fuel as [| fuel IH]; intros cur acc h all es H Hdel Hacc.
  - discriminate H.
  - loop_iteration H R cur.
    + destruct (on_get world _ _) as [e | page]; [discriminate H |].
      destruct (fetch_loop world fuel _ _ _ _ _ _ _ _) as [o' es'] eqn:E.
      injection H as -> <-.
      eapply IH; [exact E | |].
      * intros r p Hin'. apply Hdel. right. right. exact Hin'.
      * rewrite length_app, Nat2Z.inj_add.
        rewrite (Hdel (page_request base_url token resource_type cur) page)
          by (right; left; reflexivity).
        cbn [start_index_of page_request]. lia.
    + lia.
Qed.

End PagerFacts.


Lemma ceil_div_bounds R P :
  0 < P -> P * (ceil_div R P - 1) < R <= P * ceil_div R P.
Proof.
  intros HP. unfold ceil_div.
  pose proof (Z.mul_div_le (R + P - 1) P HP).
  pose proof (Z.mul_succ_div_gt (R + P - 1) P HP).
  lia.
Qed.

Lemma synthetic_always_answers R P bad_delete mutations_fail :
  always_answers (synthetic R P never bad_delete mutations_fail).
Proof. intros h r. reflexivity. Qed.

(** The schedule of a listing against a backend that answers, for the
    total and stride read off the first page with their defaults. *)
Lemma get_all_resources_returns world base_url token resource_type h first fuel :
  always_answers world ->
  on_get world h (page_request base_url token resource_type 1) = HttpOk first ->
  0 < advertised_stride first ->
  (fetch_count (advertised_total first) (advertised_stride first) <= fuel)%nat ->
  exists coll es,
    get_all_resources world fuel base_url token resource_type h = (Ret coll, es) /\
    http_requests es =
      strided_requests base_url token resource_type 1 (advertised_stride first)
        (fetch_count (advertised_total first) (advertised_stride first)).
Proof.
  set (R := advertised_total first). set (P := advertised_stride first).
  intros Hok Hfirst Hpos Hfuel.
  pose proof (ceil_div_bounds R P Hpos) as Hceil.
  assert (Hn : Z.of_nat (fetch_count R P) = Z.max 1 (ceil_div R P))
    by (unfold fetch_count; lia).
  rewrite get_all_resources_run, Hfirst. cbv zeta. fold R P.
  destruct (fetch_loop_terminates world base_url token resource_type R P Hok Hpos
              (Nat.pred (fetch_count R P)) fuel (P + 1) (page_resources first)
              (h ++ [EvGet (page_request base_url token resource_type 1) (HttpOk first);
                     found_msg R resource_type]))
    as (all & es & Hrun & Hreq).
  - lia.
  - nia.
  - intros k Hk. nia.
  - rewrite Hrun. eexists. eexists. split; [reflexivity |].
    replace (fetch_count R P) with (S (Nat.pred (fetch_count R P))) at 1 by lia.
    rewrite strided_requests_S. replace (1 + P) with (P + 1) by lia.
    rewrite <- Hreq. reflexivity.
Qed.

(** * The pager: fetch schedule *)

(** C1 (amended).  For a backend that answers every listing request and
    whose first page reports totalResults = R and itemsPerPage = P > 0,
    [get_all_resources] returns after exactly max(1, ceil(R / P)) fetches:
    the first at startIndex 1, each next one P further, and the index
    after the last one exceeds R.  For R >= 1 the count is ceil(R / P);
    for R <= 0 it is the single fetch of the first page. *)
Theorem get_all_resources_fetch_schedule
    world base_url token resource_type h first R P fuel :
  always_answers world ->
  on_get world h (page_request base_url token resource_type 1) = HttpOk first ->
  totalResults first = Some R ->
  itemsPerPage first = Some P ->
  0 < P ->
  (fetch_count R P <= fuel)%nat ->
  exists coll es,
    get_all_resources world fuel base_url token resource_type h = (Ret coll, es) /\
    http_requests es =
      strided_requests base_url token resource_type 1 P (fetch_count R P) /\
    R < 1 + Z.of_nat (fetch_count R P) * P /\
    (1 <= R -> Z.of_nat (fetch_count R P) = ceil_div R P) /\
    (R <= 0 -> fetch_count R P = 1%nat).
Proof.
  intros Hok Hfirst HR HP Hpos Hfuel.
  pose proof (ceil_div_bounds R P Hpos) as Hceil.
  assert (Hn : Z.of_nat (fetch_count R P) = Z.max 1 (ceil_div R P))
    by (unfold fetch_count; lia).
  assert (HR' : advertised_total first = R)
    by (unfold advertised_total; now rewrite HR).
  assert (HP' : advertised_stride first = P)
    by (unfold advertised_stride; now rewrite HP).
  destruct (get_all_resources_returns world base_url token resource_type h first fuel
              Hok Hfirst) as (coll & es & Hrun & Hreq).
  - now rewrite HP'.
  - now rewrite HR', HP'.
  - rewrite HR', HP' in Hreq. exists coll, es.
    split; [exact Hrun |]. split; [exact Hreq |].
    split; [nia |]. split; intros; nia.
Qed.

(** The spec's example: R = 2500 and P = 1000 give three fetches, at
    startIndex 1, 1001 and 2001. *)
Lemma get_all_resources_fetch_schedule_witness :
  exists coll es,
    get_all_resources (paginated_backend 2500 1000) 3 demo_url demo_token "Users" []
      = (Ret coll, es) /\
    map start_index_of (http_requests es) = [1; 1001; 2001].
Proof.
  destruct (get_all_resources_fetch_schedule (paginated_backend 2500 1000)
              demo_url demo_token "Users" [] _ 2500 1000 3
              (synthetic_always_answers _ _ _ _) eq_refl eq_refl eq_refl)
    as (coll & es & Hrun & Hreq & _); [lia | vm_compute; lia |].
  exists coll, es. split; [exact Hrun |]. rewrite Hreq. reflexivity.
Defined.

(** C1 as stated fails for an empty collection: with R = 0 and P = 1000
    the first page is still fetched, one fetch where ceil(R / P) = 0. *)
Lemma empty_listing_fetches_once :
  always_answers (paginated_backend 0 1000) /\
  (exists first,
     on_get (paginated_backend 0 1000) []
            (page_request demo_url demo_token "Users" 1) = HttpOk first /\
     totalResults first = Some 0 /\ itemsPerPage first = Some 1000 /\
     page_resources first = []) /\
  ceil_div 0 1000 = 0 /\
  forall fuel,
    List.length (http_requests
      (snd (get_all_resources (paginated_backend 0 1000) fuel
              demo_url demo_token "Users" []))) = 1%nat.
Proof.
  split; [apply synthetic_always_answers |].
  split; [eexists; repeat split |].
  split; [reflexivity |].
  intros [| fuel]; reflexivity.
Qed.

(** C2.  With a first page that reports totalResults = R > 0 and
    itemsPerPage = P <= 0, and a backend that keeps answering, the loop of
    [get_all_resources] is still running when any bound is reached, one
    more fetch performed for each unit of the bound: the call neither
    returns nor fails. *)
Theorem get_all_resources_zero_stride_never_returns
    world base_url token resource_type h first R P fuel :
  always_answers world ->
  on_get world h (page_request base_url token resource_type 1) = HttpOk first ->
  totalResults first = Some R ->
  itemsPerPage first = Some P ->
  0 < R ->
  P <= 0 ->
  exists es,
    get_all_resources world fuel base_url token resource_type h = (OutOfFuel, es) /\
    List.length (http_requests es) = S fuel.
Proof.
  intros Hok Hfirst HR HP Hpos Hstride.
  rewrite get_all_resources_run, Hfirst. cbv zeta.
  unfold advertised_total, advertised_stride. rewrite HR, HP. cbn [get_default].
  destruct (fetch_loop_diverges world base_url token resource_type R P Hok Hstride
              fuel (P + 1) (page_resources first)
              (h ++ [EvGet (page_request base_url token resource_type 1) (HttpOk first);
                     found_msg R resource_type]))
    as (es & Hrun & Hlen); [lia |].
  rewrite Hrun. eexists. split; [reflexivity |].
  cbn. unfold http_requests in Hlen. now rewrite Hlen.
Qed.

Lemma get_all_resources_zero_stride_never_returns_witness :
  exists es,
    get_all_resources (paginated_backend 5 0) 100 demo_url demo_token "Users" []
      = (OutOfFuel, es) /\
    List.length (http_requests es) = 101%nat.
Proof.
  apply (get_all_resources_zero_stride_never_returns (paginated_backend 5 0)
           demo_url demo_token "Users" [] _ 5 0 100
           (synthetic_always_answers _ _ _ _) eq_refl eq_refl eq_refl); lia.
Defined.

(** * The pager: the aggregated collection *)

(** C3.  Whenever [get_all_resources] returns a collection, at least one
    page was fetched, Resources is the concatenation of the fetched pages'
    Resources in fetch order, itemsPerPage is the length of that
    concatenation, startIndex is 1, totalResults is the first page's, and
    when every page delivered what it advertised the length equals the
    first page's totalResults.  Such a collection is returned, given
    enough iterations, by every backend that answers and whose first page
    advertises a positive stride or a total within the stride. *)
Theorem aggregated_collection :
  (forall world fuel base_url token resource_type h coll es,
     get_all_resources world fuel base_url token resource_type h = (Ret coll, es) ->
     exists first rest,
       fetched_pages es = first :: rest /\
       Resources coll = Some (List.concat (map page_resources (first :: rest))) /\
       itemsPerPage coll =
         Some (Z.of_nat (List.length (List.concat (map page_resources (first :: rest))))) /\
       startIndex coll = Some 1 /\
       totalResults coll = Some (advertised_total first) /\
       (delivers_as_advertised (advertised_total first) (advertised_stride first) es ->
        Z.of_nat (List.length (List.concat (map page_resources (first :: rest))))
        = advertised_total first)) /\
  (forall world base_url token resource_type h first,
     always_answers world ->
     on_get world h (page_request base_url token resource_type 1) = HttpOk first ->
     0 < advertised_stride first \/ advertised_total first <= advertised_stride first ->
     exists fuel coll es,
       get_all_resources world fuel base_url token resource_type h = (Ret coll, es)).
Proof.
  split.
  - intros world fuel base_url token resource_type h coll es H.
    rewrite get_all_resources_run in H.
    destruct (on_get world h _) as [e | first]; [discriminate H |].
    cbv zeta in H.
    destruct (fetch_loop world fuel _ _ _ _ _ _ _ _) as [[all | c | x |] es'] eqn:E;
      try discriminate H.
    injection H as <- <-.
    destruct (fetch_loop_ret _ _ _ _ _ _ _ _ _ _ _ _ E) as (Hall & _).
    exists first, (fetched_pages es').
    split; [reflexivity |]. cbn [map List.concat]. rewrite <- Hall.
    repeat split.
    intros Hdel.
    eapply fetch_loop_length; [exact E | |].
    + intros r p Hin. apply Hdel. right. right. exact Hin.
    + rewrite (Hdel (page_request base_url token resource_type 1) first)
        by (left; reflexivity).
      cbn [start_index_of page_request]. lia.
  - intros world base_url token resource_type h first Hok Hfirst [Hpos | Hsmall].
    + destruct (get_all_resources_returns world base_url token resource_type h first
                  _ Hok Hfirst Hpos (Nat.le_refl _)) as (coll & es & Hrun & _).
      eauto.
    + exists 1%nat. rewrite get_all_resources_run, Hfirst. cbv zeta.
      rewrite fetch_loop_done by lia. eauto.
Qed.

(** The synthetic backend with 2500 resources in pages of 1000: the
    aggregate holds 2500 resources and says so. *)
Lemma aggregated_collection_witness :
  exists coll es,
    get_all_resources (paginated_backend 2500 1000) 3 demo_url demo_token "Users" []
      = (Ret coll, es) /\
    option_map (@List.length Resource) (Resources coll) = Some 2500%nat /\
    itemsPerPage coll = Some 2500 /\
    startIndex coll = Some 1 /\
    totalResults coll = Some 2500.
Proof.
  destruct (get_all_resources (paginated_backend 2500 1000) 3
              demo_url demo_token "Users" []) as [o es] eqn:E.
  assert (Ho : exists coll, o = Ret coll).
  { replace o with (fst (get_all_resources (paginated_backend 2500 1000) 3
                           demo_url demo_token "Users" [])) by now rewrite E.
    vm_compute. eauto. }
  destruct Ho as (coll & ->).
  destruct (proj1 aggregated_collection _ _ _ _ _ _ _ _ E)
    as (first & rest & Hpages & Hres & Hipp & Hsi & Htot & Hlen).
  assert (Hfirst : first = {| schemas := Some ["urn:ietf:params:scim:api:messages:2.0:ListResponse"];
                              totalResults := Some 2500;
                              Resources := Some (map (fun k => numbered (1 + Z.of_nat k))
                                                     (seq 0 1000));
                              itemsPerPage := Some 1000;
                              startIndex := Some 1 |}).
  { rewrite get_all_resources_run in E. cbn [paginated_backend synthetic on_get] in E.
    cbv zeta in E. change (never (start_index_of (page_request demo_url demo_token "Users" 1)))
      with false in E. cbv iota in E.
    destruct (fetch_loop _ _ _ _ _ _ _ _ _ _) as [[all | c | x |] es'];
      try discriminate E.
    injection E as _ <-. cbn [app fetched_pages flat_map] in Hpages.
    now injection Hpages as <- _. }
  assert (Hdel : delivers_as_advertised 2500 1000 es).
  { intros r p Hin.
    replace es with (snd (get_all_resources (paginated_backend 2500 1000) 3
                            demo_url demo_token "Users" [])) in Hin by now rewrite E.
    vm_compute in Hin.
    repeat (destruct Hin as [Hin | Hin];
            [try discriminate Hin; injection Hin as <- <-; vm_compute; reflexivity |]).
    destruct Hin. }
  subst first. change (advertised_total _) with 2500 in Htot, Hlen.
  change (advertised_stride _) with 1000 in Hlen.
  specialize (Hlen Hdel).
  exists coll, es. split; [reflexivity |].
  rewrite Hres, Hipp, Hlen. cbn [option_map].
  repeat split; try assumption.
  f_equal. lia.
Defined.

(** * The pager: failures *)

(** A fetch that [get_page] could not turn into a page ends the listing
    with exit status 1. *)
Lemma listing_aborts_on_failed_fetch
    world fuel base_url token resource_type h o es r e :
  get_all_resources world fuel base_url token resource_type h = (o, es) ->
  In (EvGet r (HttpError e)) es ->
  o = Exit 1 /\ exit_status o = Some 1 /\ (forall coll, o <> Ret coll).
Proof.
  intros H Hin.
  assert (Ho : o = Exit 1).
  { rewrite get_all_resources_run in H.
    destruct (on_get world h _) as [e' | first]; [now injection H as <- <- |].
    cbv zeta in H.
    destruct (fetch_loop world fuel _ _ _ _ _ _ _ _) as [o' es'] eqn:E.
    assert (Hes : es = [EvGet (page_request base_url token resource_type 1) (HttpOk first);
                        found_msg (advertised_total first) resource_type] ++ es')
      by (destruct o'; now injection H as <- <-).
    subst es. destruct Hin as [Hd | [Hd | Hin]]; try discriminate Hd.
    pose proof (fetch_loop_error _ _ _ _ _ _ _ _ _ _ _ _ _ _ E Hin) as ->.
    congruence. }
  subst o. repeat split. discriminate.
Qed.

Lemma split_at_head (e x : Event) es es1 es2 :
  e :: es = es1 ++ x :: es2 ->
  (es1 = [] /\ e = x /\ es = es2) \/
  (exists es1', es1 = e :: es1' /\ es = es1' ++ x :: es2).
Proof.
  intros H. destruct es1 as [| e1 es1]; cbn [app] in H; injection H as -> ->.
  - now left.
  - right. now exists es1.
Qed.

(** Each listing request recorded in a run was answered by the backend,
    at the history reached just before it. *)
Lemma fetch_loop_answers world base_url token resource_type fuel R P :
  forall cur acc h o es,
    fetch_loop world fuel base_url token resource_type R P cur acc h = (o, es) ->
    forall es1 req resp es2,
      es = es1 ++ EvGet req resp :: es2 ->
      resp = on_get world (h ++ es1) req.
Proof.
  induction fuel as [| fuel IH]; intros cur acc h o es H es1 req resp es2 Hes.
  - injection H as <- <-. destruct es1; discriminate Hes.
  - destruct (Z.leb_spec cur R) as [Hin | Hout].
    + rewrite fetch_loop_step in H by exact Hin. cbv zeta in H.
      unfold fetching_msg in H.
      destruct (on_get world (h ++ [EvStderr _]) _) as [e | page] eqn:Hans.
      * injection H as <- <-.
        apply split_at_head in Hes.
        destruct Hes as [(_ & Hd & _) | (es1' & -> & Hes)]; [discriminate Hd |].
        apply split_at_head in Hes.
        destruct Hes as [(-> & Hd & _) | (es1'' & -> & Hes)].
        -- injection Hd as <- <-. now rewrite Hans.
        -- apply split_at_head in Hes.
           destruct Hes as [(_ & Hd & _) | (es3 & _ & Hes)]; [discriminate Hd |].
           destruct es3; discriminate Hes.
      * destruct (fetch_loop world fuel _ _ _ _ _ _ _ _) as [o' es'] eqn:E.
        injection H as <- <-.
        apply split_at_head in Hes.
        destruct Hes as [(_ & Hd & _) | (es1' & -> & Hes)]; [discriminate Hd |].
        apply split_at_head in Hes.
        destruct Hes as [(-> & Hd & _) | (es1'' & -> & Hes)].
        -- injection Hd as <- <-. now rewrite Hans.
        -- rewrite (IH _ _ _ _ _ E es1'' req resp es2 Hes).
           f_equal. rewrite <- !app_assoc. reflexivity.
    + rewrite fetch_loop_done in H by exact Hout. injection H as <- <-.
      destruct es1; discriminate Hes.
Qed.

Lemma get_all_resources_answers world fuel base_url token resource_type h o es :
  get_all_resources world fuel base_url token resource_type h = (o, es) ->
  forall es1 req resp es2,
    es = es1 ++ EvGet req resp :: es2 ->
    resp = on_get world (h ++ es1) req.
Proof.
  intros H es1 req resp es2 Hes. rewrite get_all_resources_run in H.
  destruct (on_get world h _) as [e | first] eqn:Hans.
  - injection H as <- <-.
    apply split_at_head in Hes.
    destruct Hes as [(-> & Hd & _) | (es1' & -> & Hes)].
    + injection Hd as <- <-. now rewrite app_nil_r, Hans.
    + apply split_at_head in Hes.
      destruct Hes as [(_ & Hd & _) | (es3 & _ & Hes)]; [discriminate Hd |].
      destruct es3; discriminate Hes.
  - cbv zeta in H.
    destruct (fetch_loop world fuel _ _ _ _ _ _ _ _) as [o' es'] eqn:E.
    assert (Hes' : es = EvGet (page_request base_url token resource_type 1) (HttpOk first)
                        :: EvStderr ("Found " +++ str_of_Z (advertised_total first)
                                     +++ " total " +++ resource_type
                                     +++ ", fetching all pages...") :: es')
      by (destruct o'; now injection H as <- <-).
    rewrite Hes' in Hes.
    apply split_at_head in Hes.
    destruct Hes as [(-> & Hd & _) | (es1' & -> & Hes)].
    + injection Hd as <- <-. now rewrite app_nil_r, Hans.
    + apply split_at_head in Hes.
      destruct Hes as [(_ & Hd & _) | (es1'' & -> & Hes)]; [discriminate Hd |].
      rewrite (fetch_loop_answers _ _ _ _ _ _ _ _ _ _ _ _ E es1'' req resp es2 Hes).
      f_equal. rewrite <- app_assoc. reflexivity.
Qed.

(** C9 (amended).  For every page fetch during listing, a transport-level
    error, a response with a status from 400 to 599 and a response whose
    body is not JSON abort the entire listing with exit status 1: no
    collection, partial or not, is returned.  A response with any other
    status and a JSON body, 2xx or not, is taken as a page. *)
Theorem listing_aborts_on_failed_exchange
    w raw fuel base_url token resource_type h o es es1 req resp es2 :
  get_all_resources (with_raw_get w raw) fuel base_url token resource_type h = (o, es) ->
  es = es1 ++ EvGet req resp :: es2 ->
  resp = checked_json (raw (h ++ es1) req) /\
  (failed_exchange (raw (h ++ es1) req) = true ->
   o = Exit 1 /\ exit_status o = Some 1 /\ (forall coll, o <> Ret coll)) /\
  (failed_exchange (raw (h ++ es1) req) = false ->
   exists page, resp = HttpOk page).
Proof.
  intros H Hes.
  pose proof (get_all_resources_answers _ _ _ _ _ _ _ _ H es1 req resp es2 Hes) as Hresp.
  cbn [with_raw_get on_get] in Hresp.
  split; [exact Hresp |]. split.
  - intros Hfailed.
    assert (Herr : exists e, resp = HttpError e).
    { rewrite Hresp. unfold checked_json, failed_exchange in *.
      destruct (raw (h ++ es1) req) as [e | r]; [now exists e |].
      destruct (raises_for_status (status_code r)); [now eexists |].
      destruct (decoded_body r) as [e | v]; [now exists e | discriminate Hfailed]. }
    destruct Herr as (e & ->).
    apply (listing_aborts_on_failed_fetch _ _ _ _ _ _ _ _ req e H).
    rewrite Hes. apply in_elt.
  - intros Hfine. rewrite Hresp. unfold checked_json, failed_exchange in *.
    destruct (raw (h ++ es1) req) as [e | r]; [discriminate Hfine |].
    destruct (raises_for_status (status_code r)); [discriminate Hfine |].
    destruct (decoded_body r) as [e | v]; [discriminate Hfine | now exists v].
Qed.

(** A server with 2500 resources that answers the second page with
    status 503: the listing exits with status 1 after the fetches at 1
    and 1001. *)
Lemma listing_aborts_on_failed_exchange_witness :
  exists es,
    get_all_resources (with_raw_get (paginated_backend 0 0) unavailable_at_1001) 3
                      demo_url demo_token "Users" [] = (Exit 1, es) /\
    map start_index_of (http_requests es) = [1; 1001].
Proof.
  destruct (get_all_resources (with_raw_get (paginated_backend 0 0) unavailable_at_1001)
              3 demo_url demo_token "Users" []) as [o es] eqn:E.
  assert (Hes : es = firstn 3 es ++ EvGet (page_request demo_url demo_token "Users" 1001)
                                          (HttpError server_error) :: skipn 4 es).
  { replace es with (snd (get_all_resources
                            (with_raw_get (paginated_backend 0 0) unavailable_at_1001)
                            3 demo_url demo_token "Users" [])) by now rewrite E.
    vm_compute. reflexivity. }
  destruct (listing_aborts_on_failed_exchange _ _ _ _ _ _ _ _ _ _ _ _ _ E Hes)
    as (_ & Habort & _).
  destruct Habort as (-> & _).
  - replace es with (snd (get_all_resources
                            (with_raw_get (paginated_backend 0 0) unavailable_at_1001)
                            3 demo_url demo_token "Users" [])) by now rewrite E.
    vm_compute. reflexivity.
  - exists es. split; [reflexivity |].
    replace es with (snd (get_all_resources
                            (with_raw_get (paginated_backend 0 0) unavailable_at_1001)
                            3 demo_url demo_token "Users" [])) by now rewrite E.
    vm_compute. reflexivity.
Defined.

(** C9 as stated fails for a non-2xx response outside 400 to 599: a
    server answering with status 300 and a JSON body is not an error for
    [raise_for_status], and the listing returns that body's records. *)
Lemma redirect_status_taken_as_page :
  exists r coll es,
    multiple_choices [] (page_request demo_url demo_token "Users" 1) = Replied r /\
    is_2xx (status_code r) = false /\
    get_all_resources (with_raw_get (paginated_backend 0 0) multiple_choices) 1
                      demo_url demo_token "Users" [] = (Ret coll, es) /\
    Resources coll = Some [numbered 1; numbered 2].
Proof.
  do 3 eexists. split; [reflexivity |]. split; [reflexivity |].
  split; [vm_compute; reflexivity | reflexivity].
Qed.

(** * The pager: stride and requested count *)



(** * Running the bulk deleter *)

Section DeleterFacts.

Variable world : World.
Variables base_url token resource_type : string.

Lemma delete_resource_run resource_id h :
  delete_resource world base_url token resource_type resource_id h =
  let r := on_delete world h (delete_request base_url token resource_type resource_id) in
  (Ret (is_ok r),
   EvDelete (delete_request base_url token resource_type resource_id) r
   :: error_line resource_type resource_id r).
Proof.
  unfold delete_resource, bind, requests_delete, delete_request. cbv zeta.
  destruct (on_delete world h _); reflexivity.
Qed.

Lemma time_sleep_run delay h :
  sleep_error world delay = None ->
  time_sleep world delay h = (Ret tt, [EvSleep delay]).
Proof. intros Hd. unfold time_sleep. now rewrite Hd. Qed.

(** The loop performs one deletion per identifier, whatever the answers. *)
Lemma delete_loop_run delay total : forall ids i d h,
  delay_accepted world delay ids ->
  i + Z.of_nat (List.length ids) = total + 1 ->
  exists resps,
    List.length resps = List.length ids /\
    delete_loop world base_url token resource_type delay total i ids d h =
    (Ret (record_outcomes d ids resps),
     deletion_trace base_url token resource_type delay total i ids resps).
Proof.
  induction ids as [| id rest IH]; intros i d h Hdelay Hpos.
  - exists []. split; reflexivity.
  - cbn [List.length] in Hpos.
    cbn [delete_loop]. unfold bind at 1. cbn [print_stderr emit].
    unfold bind at 1. rewrite delete_resource_run. cbv zeta.
    fold (deleting_msg resource_type i total id).
    set (h1 := h ++ [deleting_msg resource_type i total id]).
    set (r := on_delete world h1 (delete_request base_url token resource_type id)).
    unfold bind at 1.
    assert (Hsleep :
      (if (i <? total)%Z then time_sleep world delay else ret tt)
        (h1 ++ EvDelete (delete_request base_url token resource_type id) r
               :: error_line resource_type id r)
      = (Ret tt, if (i <? total)%Z then [EvSleep delay] else [])).
    { destruct (Z.ltb_spec i total) as [Hlt | Hge]; [| reflexivity].
      apply time_sleep_run. destruct Hdelay as [Hd | Hshort]; [exact Hd |].
      cbn [List.length] in Hshort. lia. }
    rewrite Hsleep.
    match goal with
    | |- context [delete_loop world base_url token resource_type delay total
                    (i + 1) rest ?d' ?h'] =>
        destruct (IH (i + 1) d' h') as (resps & Hlen & Hrun)
    end.
    + destruct Hdelay as [Hd | Hshort]; [now left | right].
      cbn [List.length] in Hshort. lia.
    + lia.
    + rewrite Hrun. exists (r :: resps). split; [cbn; now rewrite Hlen |].
      cbn [deletion_trace record_outcomes combine fold_left fst snd].
      reflexivity.
Qed.

End DeleterFacts.

(** * The trace of a bulk deletion *)

Section DeletionTrace.

Variables base_url token resource_type : string.
Variable delay : Q.
Variable total : Z.

Lemma http_requests_app es1 es2 :
  http_requests (es1 ++ es2) = http_requests es1 ++ http_requests es2.
Proof. apply flat_map_app. Qed.

Lemma delete_responses_app es1 es2 :
  delete_responses (es1 ++ es2) = delete_responses es1 ++ delete_responses es2.
Proof. apply flat_map_app. Qed.

Lemma schedule_app es1 es2 : schedule (es1 ++ es2) = schedule es1 ++ schedule es2.
Proof. apply flat_map_app. Qed.

Lemma sleeps_app es1 es2 : sleeps (es1 ++ es2) = sleeps es1 ++ sleeps es2.
Proof. apply flat_map_app. Qed.

Lemma error_line_silent id r :
  http_requests (error_line resource_type id r) = [] /\
  delete_responses (error_line resource_type id r) = [] /\
  schedule (error_line resource_type id r) = [] /\
  sleeps (error_line resource_type id r) = [].
Proof. destruct r; repeat split. Qed.

(** Unfolds each observation over one iteration of the trace. *)
Ltac trace_iteration id r :=
  cbn [deletion_trace];
  cbn [http_requests delete_responses schedule sleeps flat_map request_of
       deleting_msg app];
  fold (http_requests) (delete_responses) (schedule) (sleeps);
  rewrite ?http_requests_app, ?delete_responses_app, ?schedule_app, ?sleeps_app;
  let E1 := fresh in let E2 := fresh in let E3 := fresh in let E4 := fresh in
  destruct (error_line_silent id r) as (E1 & E2 & E3 & E4);
  rewrite ?E1, ?E2, ?E3, ?E4; clear E1 E2 E3 E4;
  cbn [app].

Lemma trace_requests : forall ids resps i,
  List.length resps = List.length ids ->
  http_requests (deletion_trace base_url token resource_type delay total i ids resps)
  = map (delete_request base_url token resource_type) ids.
Proof.
  induction ids as [| id rest IH]; intros [| r resps] i Hlen;
    try discriminate Hlen; [reflexivity |].
  trace_iteration id r. rewrite IH by (cbn in Hlen; lia).
  now destruct (i <? total)%Z.
Qed.

Lemma trace_responses : forall ids resps i,
  List.length resps = List.length ids ->
  delete_responses (deletion_trace base_url token resource_type delay total i ids resps)
  = resps.
Proof.
  induction ids as [| id rest IH]; intros [| r resps] i Hlen;
    try discriminate Hlen; [reflexivity |].
  trace_iteration id r. rewrite IH by (cbn in Hlen; lia).
  now destruct (i <? total)%Z.
Qed.

Lemma trace_schedule : forall ids resps i,
  List.length resps = List.length ids ->
  i + Z.of_nat (List.length ids) = total + 1 ->
  schedule (deletion_trace base_url token resource_type delay total i ids resps)
  = pause_between delay (map (delete_request base_url token resource_type) ids).
Proof.
  induction ids as [| id rest IH]; intros [| r resps] i Hlen Hpos;
    try discriminate Hlen; [reflexivity |].
  trace_iteration id r. cbn [List.length] in Hlen, Hpos.
  rewrite IH by lia.
  destruct rest as [| id' rest].
  - destruct (Z.ltb_spec i total); [cbn [List.length] in Hpos; lia | reflexivity].
  - destruct (Z.ltb_spec i total); [reflexivity | cbn [List.length] in Hpos; lia].
Qed.

Lemma trace_sleeps : forall ids resps i,
  List.length resps = List.length ids ->
  i + Z.of_nat (List.length ids) = total + 1 ->
  sleeps (deletion_trace base_url token resource_type delay total i ids resps)
  = repeat delay (Nat.pred (List.length ids)).
Proof.
  induction ids as [| id rest IH]; intros [| r resps] i Hlen Hpos;
    try discriminate Hlen; [reflexivity |].
  trace_iteration id r. cbn [List.length] in Hlen, Hpos.
  rewrite IH by lia.
  destruct rest as [| id' rest].
  - destruct (Z.ltb_spec i total); [cbn [List.length] in Hpos; lia | reflexivity].
  - destruct (Z.ltb_spec i total); [reflexivity | cbn [List.length] in Hpos; lia].
Qed.

End DeletionTrace.

(** * The outcome mapping *)

Lemma dict_get_set_same d k v : dict_get (dict_set d k v) k = Some v.
Proof.
  induction d as [| [k' v'] d IH]; cbn.
  - now rewrite String.eqb_refl.
  - destruct (k' =? k) eqn:E; cbn; rewrite E; [reflexivity | exact IH].
Qed.

Lemma dict_get_set_other d k v k2 :
  k <> k2 -> dict_get (dict_set d k v) k2 = dict_get d k2.
Proof.
  intros Hne. induction d as [| [k' v'] d IH]; cbn.
  - apply String.eqb_neq in Hne. now rewrite Hne.
  - destruct (k' =? k) eqn:E; cbn.
    + apply String.eqb_eq in E. subst k'.
      apply String.eqb_neq in Hne. now rewrite Hne.
    + destruct (k' =? k2); [reflexivity | exact IH].
Qed.

Lemma keys_dict_set d k v :
  keys (dict_set d k v) = if has_key (keys d) k then keys d else keys d ++ [k].
Proof.
  induction d as [| [k' v'] d IH]; cbn; [reflexivity |].
  destruct (k' =? k) eqn:E; cbn; [reflexivity |].
  fold (keys (dict_set d k v)) (keys d) (has_key (keys d) k). rewrite IH.
  now destruct (has_key (keys d) k).
Qed.

Lemma filter_filter {A : Type} (p q : A -> bool) l :
  filter p (filter q l) = filter (fun x => q x && p x) l.
Proof.
  induction l as [| x l IH]; cbn; [reflexivity |].
  destruct (q x); cbn; [destruct (p x) |]; now rewrite IH.
Qed.

Lemma dedup_filter p : forall l, dedup (filter p l) = filter p (dedup l).
Proof.
  induction l as [| y l IH]; cbn; [reflexivity |].
  destruct (p y) eqn:Hp; cbn; rewrite ?Hp.
  - rewrite IH, !filter_filter. f_equal. apply filter_ext. intros x.
    apply andb_comm.
  - rewrite IH, filter_filter. apply filter_ext. intros x.
    destruct (x =? y) eqn:E; cbn; [| reflexivity].
    apply String.eqb_eq in E. now subst x.
Qed.

Lemma filter_all {A : Type} (p : A -> bool) l :
  (forall x, In x l -> p x = true) -> filter p l = l.
Proof.
  induction l as [| x l IH]; intros Hall; cbn; [reflexivity |].
  rewrite (Hall x) by now left. f_equal. apply IH. intros y Hy. apply Hall. now right.
Qed.

Lemma dedup_In x : forall l, In x (dedup l) <-> In x l.
Proof.
  induction l as [| y l IH]; cbn; [tauto |].
  rewrite filter_In, IH. destruct (String.eqb_spec x y) as [-> | Hne]; cbn.
  - split; [intros [H | [_ H]]; [now left | discriminate H] | now left].
  - split; [tauto |]. intros [H | H]; [now left | tauto].
Qed.

Lemma dedup_NoDup : forall l, NoDup (dedup l).
Proof.
  induction l as [| y l IH]; cbn; constructor.
  - rewrite filter_In, String.eqb_refl. cbn. intros [_ H]. discriminate H.
  - now apply NoDup_filter.
Qed.

Lemma dedup_of_NoDup : forall l, NoDup l -> dedup l = l.
Proof.
  induction l as [| y l IH]; intros Hnd; cbn; [reflexivity |].
  inversion Hnd as [| ? ? Hnotin Hnd']; subst.
  rewrite IH by exact Hnd'. f_equal. apply filter_all.
  intros x Hx. destruct (String.eqb_spec x y) as [-> | _]; [contradiction | reflexivity].
Qed.

Lemma has_key_app ks k x :
  has_key (ks ++ [k]) x = has_key ks x || (k =? x).
Proof. unfold has_key. rewrite existsb_app. cbn. now rewrite orb_false_r. Qed.

(** The keys after a bulk deletion: the old ones, then the new
    identifiers in order of first occurrence. *)
Lemma record_outcomes_keys : forall ids resps d,
  List.length resps = List.length ids ->
  keys (record_outcomes d ids resps)
  = keys d ++ dedup (filter (fun k => negb (has_key (keys d) k)) ids).
Proof.
  induction ids as [| id rest IH]; intros [| r resps] d Hlen;
    try discriminate Hlen.
  - cbn. now rewrite app_nil_r.
  - unfold record_outcomes. cbn [combine fold_left fst snd].
    fold (record_outcomes (dict_set d id (is_ok r)) rest resps).
    rewrite IH by (cbn in Hlen; lia). rewrite keys_dict_set. cbn [filter].
    destruct (has_key (keys d) id) eqn:Hk; cbn [negb]; [reflexivity |].
    cbn [dedup]. rewrite <- app_assoc. cbn [app]. do 2 f_equal.
    rewrite <- dedup_filter, filter_filter. f_equal. apply filter_ext.
    intros x. rewrite has_key_app, negb_orb. f_equal. f_equal. apply String.eqb_sym.
Qed.

(** The value recorded for an identifier is the answer to its last
    deletion; other entries are left as they were. *)
Lemma record_outcomes_get : forall ids resps d,
  List.length resps = List.length ids ->
  (forall k id r,
     nth_error ids k = Some id -> nth_error resps k = Some r ->
     (forall j, (k < j)%nat -> nth_error ids j <> Some id) ->
     dict_get (record_outcomes d ids resps) id = Some (is_ok r)) /\
  (forall id, ~ In id ids -> dict_get (record_outcomes d ids resps) id = dict_get d id).
Proof.
  induction ids as [| x rest IH]; intros [| r0 resps] d Hlen;
    try discriminate Hlen.
  - split; [intros [| k] id r H; discriminate H | reflexivity].
  - unfold record_outcomes. cbn [combine fold_left fst snd].
    fold (record_outcomes (dict_set d x (is_ok r0)) rest resps).
    destruct (IH resps (dict_set d x (is_ok r0))) as (IHlast & IHother);
      [cbn in Hlen; lia |].
    split.
    + intros [| k] id r Hid Hr Hlater.
      * injection Hid as ->. injection Hr as ->.
        rewrite IHother; [apply dict_get_set_same |].
        intros Hin. apply In_nth_error in Hin. destruct Hin as (j & Hj).
        apply (Hlater (S j)); [lia | exact Hj].
      * apply (IHlast k id r Hid Hr). intros j Hj. apply (Hlater (S j)). lia.
    + intros id Hnotin. rewrite IHother by (intros Hin; apply Hnotin; now right).
      apply dict_get_set_other. intros ->. apply Hnotin. now left.
Qed.

(** * The bulk deleter *)

Lemma delete_resources_run world base_url token resource_type ids delay h :
  delay_accepted world delay ids ->
  exists resps,
    List.length resps = List.length ids /\
    delete_resources world base_url token resource_type ids delay h =
    (Ret (record_outcomes [] ids resps),
     deletion_trace base_url token resource_type delay
                    (Z.of_nat (List.length ids)) 1 ids resps).
Proof.
  intros Hdelay. unfold delete_resources.
  apply delete_loop_run; [exact Hdelay | lia].
Qed.

(** C4 (amended).  When [time.sleep] accepts the delay (or at most one
    identifier is given, so that no pause is due), [delete_resources]
    returns a mapping with one entry per distinct identifier, in order of
    first occurrence; for N pairwise distinct identifiers it has exactly N
    entries, in input order.  For no identifier the mapping is empty and
    nothing at all is done: no network call, no pause. *)
Theorem delete_resources_one_entry_per_identifier
    world base_url token resource_type ids delay h :
  delay_accepted world delay ids ->
  exists results es,
    delete_resources world base_url token resource_type ids delay h = (Ret results, es) /\
    keys results = dedup ids /\
    NoDup (keys results) /\
    (forall id, In id (keys results) <-> In id ids) /\
    (NoDup ids -> keys results = ids /\ List.length results = List.length ids) /\
    (ids = [] -> results = [] /\ es = []).
Proof.
  intros Hdelay.
  destruct (delete_resources_run world base_url token resource_type ids delay h Hdelay)
    as (resps & Hlen & Hrun).
  assert (Hkeys : keys (record_outcomes [] ids resps) = dedup ids).
  { rewrite record_outcomes_keys by exact Hlen. cbn [keys map app].
    f_equal. apply filter_all. reflexivity. }
  eexists. eexists. split; [exact Hrun |].
  split; [exact Hkeys |]. rewrite Hkeys.
  split; [apply dedup_NoDup |].
  split; [intros id; apply dedup_In |].
  split.
  - intros Hnd. rewrite dedup_of_NoDup by exact Hnd. split; [reflexivity |].
    rewrite <- (length_map fst). fold (keys (record_outcomes [] ids resps)).
    rewrite Hkeys. now rewrite dedup_of_NoDup.
  - intros ->. destruct resps; [split; reflexivity | discriminate Hlen].
Qed.

Lemma delete_resources_one_entry_per_identifier_witness :
  exists es,
    delete_resources (paginated_backend 3 1000) demo_url demo_token "Users"
                     ["1"; "2"; "3"] default_delay []
    = (Ret [("1", true); ("2", true); ("3", true)], es).
Proof.
  destruct (delete_resources_one_entry_per_identifier (paginated_backend 3 1000)
              demo_url demo_token "Users" ["1"; "2"; "3"] default_delay [])
    as (results & es & Hrun & _).
  - left. reflexivity.
  - exists es. rewrite Hrun. vm_compute in Hrun. now injection Hrun as <- _.
Defined.

(** C4 as stated fails when an identifier is repeated: two identifiers
    are processed, the mapping has one entry. *)
Lemma repeated_identifier_single_entry :
  exists results es,
    delete_resources (paginated_backend 3 1000) demo_url demo_token "Users"
                     ["7"; "7"] default_delay [] = (Ret results, es) /\
    List.length (http_requests es) = 2%nat /\
    List.length results = 1%nat /\
    List.length results <> List.length ["7"; "7"].
Proof.
  eexists. eexists. split; [vm_compute; reflexivity |].
  repeat split. discriminate.
Qed.

(** C5 (amended).  [delete_resource] answers a failed deletion by
    logging it and returning false; and when [time.sleep] accepts the
    delay (or at most one identifier is given), [delete_resources]
    attempts every identifier in input order whatever the answers, and
    records for each identifier whether its (last) deletion succeeded. *)
Theorem delete_failure_does_not_stop
    world base_url token resource_type ids delay h :
  delay_accepted world delay ids ->
  (forall id h' e,
     on_delete world h' (delete_request base_url token resource_type id) = HttpError e ->
     delete_resource world base_url token resource_type id h' =
     (Ret false,
      [EvDelete (delete_request base_url token resource_type id) (HttpError e);
       EvStderr ("Error deleting " +++ resource_type +++ " " +++ id
                 +++ ": " +++ exc_str e)])) /\
  exists results es,
    delete_resources world base_url token resource_type ids delay h = (Ret results, es) /\
    http_requests es = map (delete_request base_url token resource_type) ids /\
    List.length (delete_responses es) = List.length ids /\
    (forall k id r,
       nth_error ids k = Some id ->
       nth_error (delete_responses es) k = Some r ->
       (forall j, (k < j)%nat -> nth_error ids j <> Some id) ->
       dict_get results id = Some (is_ok r)).
Proof.
  intros Hdelay. split.
  - intros id h' e He. rewrite delete_resource_run. cbv zeta. now rewrite He.
  - destruct (delete_resources_run world base_url token resource_type ids delay h Hdelay)
      as (resps & Hlen & Hrun).
    eexists. eexists. split; [exact Hrun |].
    rewrite trace_requests, trace_responses by exact Hlen.
    split; [reflexivity |]. split; [exact Hlen |].
    apply (record_outcomes_get ids resps [] Hlen).
Qed.

(** Identifier #2 of 3 failing: all three deletions are attempted and
    the outcome is {1: true, 2: false, 3: true}. *)
Lemma delete_failure_does_not_stop_witness :
  exists es,
    delete_resources
      (synthetic 3 1000 never
         (String.eqb "https://scim.example/api/v2/scim/Users/2") false)
      demo_url demo_token "Users" ["1"; "2"; "3"] default_delay []
    = (Ret [("1", true); ("2", false); ("3", true)], es) /\
    List.length (http_requests es) = 3%nat.
Proof.
  destruct (delete_failure_does_not_stop
              (synthetic 3 1000 never
                 (String.eqb "https://scim.example/api/v2/scim/Users/2") false)
              demo_url demo_token "Users" ["1"; "2"; "3"] default_delay [])
    as (_ & results & es & Hrun & Hreq & _).
  - left. reflexivity.
  - exists es. rewrite Hreq. split; [| reflexivity].
    rewrite Hrun. vm_compute in Hrun. now injection Hrun as <- _.
Defined.

(** C5 as stated fails when [time.sleep] refuses the delay: with a
    delay of -0.5 and the first of three deletions failing, the pause
    after it raises [ValueError]; identifiers 2 and 3 are never attempted
    and no mapping is returned. *)
Lemma refused_delay_ends_deletion :
  exists e es,
    on_delete (synthetic 3 1000 never
                 (String.eqb "https://scim.example/api/v2/scim/Users/1") false)
              [deleting_msg "Users" 1 3 "1"]
              (delete_request demo_url demo_token "Users" "1") = HttpError e /\
    delete_resources
      (synthetic 3 1000 never
         (String.eqb "https://scim.example/api/v2/scim/Users/1") false)
      demo_url demo_token "Users" ["1"; "2"; "3"] (- 1 # 2) []
    = (Raise ValueError, es) /\
    http_requests es = [delete_request demo_url demo_token "Users" "1"].
Proof.
  do 2 eexists. split; [reflexivity |].
  split; [vm_compute; reflexivity | reflexivity].
Qed.

(** C6 (amended).  When [time.sleep] accepts the delay D (or at most
    one identifier is given, so that no pause is due), [delete_resources]
    pauses for D after each deletion except the last, that is between
    consecutive deletions: N - 1 pauses for N identifiers, none before the
    first deletion or after the last. *)
Theorem delete_resources_pauses_between
    world base_url token resource_type ids delay h :
  delay_accepted world delay ids ->
  exists results es,
    delete_resources world base_url token resource_type ids delay h = (Ret results, es) /\
    schedule es =
      pause_between delay (map (delete_request base_url token resource_type) ids) /\
    sleeps es = repeat delay (List.length ids - 1).
Proof.
  intros Hdelay.
  destruct (delete_resources_run world base_url token resource_type ids delay h Hdelay)
    as (resps & Hlen & Hrun).
  eexists. eexists. split; [exact Hrun |].
  rewrite trace_schedule, trace_sleeps by (exact Hlen || lia).
  split; [reflexivity |]. f_equal. lia.
Qed.

Lemma delete_resources_pauses_between_witness :
  exists results es,
    delete_resources (paginated_backend 3 1000) demo_url demo_token "Users"
                     ["1"; "2"; "3"] default_delay [] = (Ret results, es) /\
    schedule es =
      [inl (delete_request demo_url demo_token "Users" "1"); inr default_delay;
       inl (delete_request demo_url demo_token "Users" "2"); inr default_delay;
       inl (delete_request demo_url demo_token "Users" "3")] /\
    sleeps es = [default_delay; default_delay].
Proof.
  destruct (delete_resources_pauses_between (paginated_backend 3 1000)
              demo_url demo_token "Users" ["1"; "2"; "3"] default_delay [])
    as (results & es & Hrun & Hsched & Hsleeps).
  - left. reflexivity.
  - exists results, es. split; [exact Hrun |]. split; assumption.
Defined.

(** C6 as stated fails: nothing precedes the first of two deletions,
    and a pause precedes the last. *)
Lemma no_pause_before_first_deletion :
  exists results es,
    delete_resources (paginated_backend 3 1000) demo_url demo_token "Users"
                     ["1"; "2"] default_delay [] = (Ret results, es) /\
    schedule es =
      [inl (delete_request demo_url demo_token "Users" "1"); inr default_delay;
       inl (delete_request demo_url demo_token "Users" "2")] /\
    schedule es <>
      pause_before_all_but_last default_delay
        (map (delete_request demo_url demo_token "Users") ["1"; "2"]).
Proof.
  eexists. eexists. split; [vm_compute; reflexivity |].
  split; [reflexivity | discriminate].
Qed.

(** * Resource mutation operations *)

Section MutationFacts.

Variable world : World.
Variables base_url token : string.

Lemma create_user_run username email first_name last_name external_id h :
  exists es,
    create_user world base_url token username email first_name last_name external_id h
    = (match on_post world h (create_user_request base_url token username email
                                first_name last_name external_id) with
       | HttpOk body => Ret body
       | HttpError _ => Exit 1
       end, es) /\
    http_requests es = [create_user_request base_url token username email
                          first_name last_name external_id].
Proof.
  unfold create_user, bind, requests_post, create_user_request, print_response_text.
  destruct (on_post world h _) as [e | body]; [| eexists; split; reflexivity].
  destruct (exc_response_text e); eexists; split; reflexivity.
Qed.

Lemma create_group_run display_name external_id member_ids h :
  exists es,
    create_group world base_url token display_name external_id member_ids h
    = (match on_post world h (create_group_request base_url token display_name
                                external_id member_ids) with
       | HttpOk body => Ret body
       | HttpError _ => Exit 1
       end, es) /\
    http_requests es = [create_group_request base_url token display_name
                          external_id member_ids].
Proof.
  unfold create_group, bind, requests_post, create_group_request, print_response_text.
  destruct (on_post world h _) as [e | body]; [| eexists; split; reflexivity].
  destruct (exc_response_text e); eexists; split; reflexivity.
Qed.

Lemma add_user_to_group_run group_id user_id h :
  exists es,
    add_user_to_group world base_url token group_id user_id h
    = (Ret (is_ok (on_patch world h (add_member_request base_url token group_id user_id))),
       es) /\
    http_requests es = [add_member_request base_url token group_id user_id] /\
    (forall e, In (EvStderr e) es ->
       is_ok (on_patch world h (add_member_request base_url token group_id user_id))
       = false).
Proof.
  unfold add_user_to_group, bind, requests_patch, add_member_request, print_response_text.
  destruct (on_patch world h _) as [e | body].
  - destruct (exc_response_text e); eexists; repeat split.
  - eexists. split; [reflexivity |]. split; [reflexivity |].
    intros e [H | []]. discriminate H.
Qed.

End MutationFacts.

(** * The command-line driver *)

(** Formatting performs no event. *)
Lemma format_user_quiet user h : snd (format_user user h) = [].
Proof.
  unfold format_user, bind.
  destruct (emails user) as [[| m ms] |]; cbn; try reflexivity.
  destruct (email_value m); reflexivity.
Qed.

Section DriverFacts.

Variable world : World.

(** The user-creation branch: one POST; a failure ends the process with
    exit status 1. *)
Lemma main_create_user fuel args h :
  add_to_group args = false ->
  action args = create_action ->
  truthy (username args) = true ->
  all_truthy [email args; first_name args; last_name args] = true ->
  exists o es,
    main world fuel args h = (o, es) /\
    http_requests es =
      [create_user_request (url args) (token args) (the (username args))
         (the (email args)) (the (first_name args)) (the (last_name args))
         (external_id args)] /\
    (is_ok (on_post world h
              (create_user_request (url args) (token args) (the (username args))
                 (the (email args)) (the (first_name args)) (the (last_name args))
                 (external_id args))) = false -> o = Exit 1).
Proof.
  intros Hmode Hact Huser Hfields.
  unfold main. rewrite Hmode, Hact, Huser, Hfields. cbn [negb].
  destruct (create_user_run world (url args) (token args) (the (username args))
              (the (email args)) (the (first_name args)) (the (last_name args))
              (external_id args) h) as (es & Hrun & Hreq).
  unfold bind at 1. rewrite Hrun.
  destruct (on_post world h _) as [e | body].
  - exists (Exit 1), es. repeat split. exact Hreq.
  - destruct (bind _ _ (h ++ es)) as [o' es'] eqn:E.
    exists o', (es ++ es'). split; [reflexivity |]. split; [| discriminate].
    rewrite http_requests_app, Hreq.
    assert (Hquiet : http_requests es' = []).
    { unfold bind in E. destruct (format args); cbn in E.
      - pose proof (format_user_quiet body
                      ((h ++ es) ++ [EvStdout "User created successfully:"])) as Hq.
        destruct (format_user body _) as [[text | c | x |] es2];
          cbn in Hq; subst es2; cbn in E; now injection E as _ <-.
      - now injection E as _ <-. }
    now rewrite Hquiet.
Qed.

(** The group-creation branch: one POST; a failure ends the process with
    exit status 1. *)
Lemma main_create_group fuel args h :
  add_to_group args = false ->
  action args = create_action ->
  truthy (username args) = false ->
  truthy (display_name args) = true ->
  exists o es,
    main world fuel args h = (o, es) /\
    http_requests es =
      [create_group_request (url args) (token args) (the (display_name args))
         (external_id args) (member_ids_of args)] /\
    (is_ok (on_post world h
              (create_group_request (url args) (token args) (the (display_name args))
                 (external_id args) (member_ids_of args))) = false -> o = Exit 1).
Proof.
  intros Hmode Hact Huser Hgroup.
  unfold main. rewrite Hmode, Hact, Huser, Hgroup. cbv zeta.
  fold (member_ids_of args).
  destruct (create_group_run world (url args) (token args) (the (display_name args))
              (external_id args) (member_ids_of args) h) as (es & Hrun & Hreq).
  unfold bind at 1. rewrite Hrun.
  destruct (on_post world h _) as [e | body].
  - exists (Exit 1), es. repeat split. exact Hreq.
  - destruct (bind _ _ (h ++ es)) as [o' es'] eqn:E.
    exists o', (es ++ es'). split; [reflexivity |]. split; [| discriminate].
    rewrite http_requests_app, Hreq.
    assert (Hquiet : http_requests es' = []).
    { unfold bind in E. destruct (format args); cbn in E; now injection E as _ <-. }
    now rewrite Hquiet.
Qed.

(** The add-to-group mode: one PATCH, then exit status 0 whatever the
    answer. *)
Lemma main_add_to_group fuel args h :
  add_to_group args = true ->
  all_truthy [user_id args; group_id args] = true ->
  exists es,
    main world fuel args h = (Exit 0, es) /\
    http_requests es =
      [add_member_request (url args) (token args) (the (group_id args))
         (the (user_id args))].
Proof.
  intros Hmode Hids.
  unfold main. rewrite Hmode, Hids. cbn [negb].
  destruct (add_user_to_group_run world (url args) (token args) (the (group_id args))
              (the (user_id args)) h) as (es & Hrun & Hreq & _).
  unfold bind at 1. rewrite Hrun.
  destruct (is_ok _); cbn; eexists; (split; [reflexivity |]);
    rewrite http_requests_app, Hreq; reflexivity.
Qed.

End DriverFacts.

(** * Mutations and exit status *)

(** C7 (amended).  Each mutation operation issues exactly one HTTP call.
    Create user and create group return the decoded body, or on a
    transport or HTTP error log it on standard error and end the process
    with exit status 1, also when reached through [main].  Add user to
    group returns whether the call succeeded: on an error it logs the
    error on standard error and returns false to its caller instead of
    ending the process. *)
Theorem mutation_operations_single_call world base_url bearer h :
  (forall username email first_name last_name external_id,
     create_user world base_url bearer username email first_name last_name
                 external_id h
     = match on_post world h (create_user_request base_url bearer username email
                                first_name last_name external_id) with
       | HttpOk body =>
           (Ret body,
            [EvPost (create_user_request base_url bearer username email
                       first_name last_name external_id) (HttpOk body)])
       | HttpError e =>
           (Exit 1,
            EvPost (create_user_request base_url bearer username email
                      first_name last_name external_id) (HttpError e)
            :: EvStderr ("Error creating user: " +++ exc_str e)
            :: response_text_line e)
       end) /\
  (forall display_name external_id member_ids,
     create_group world base_url bearer display_name external_id member_ids h
     = match on_post world h (create_group_request base_url bearer display_name
                                external_id member_ids) with
       | HttpOk body =>
           (Ret body,
            [EvPost (create_group_request base_url bearer display_name
                       external_id member_ids) (HttpOk body)])
       | HttpError e =>
           (Exit 1,
            EvPost (create_group_request base_url bearer display_name
                      external_id member_ids) (HttpError e)
            :: EvStderr ("Error creating group: " +++ exc_str e)
            :: response_text_line e)
       end) /\
  (forall group_id user_id,
     add_user_to_group world base_url bearer group_id user_id h
     = match on_patch world h
               (add_member_request base_url bearer group_id user_id) with
       | HttpOk body =>
           (Ret true,
            [EvPatch (add_member_request base_url bearer group_id user_id)
                     (HttpOk body)])
       | HttpError e =>
           (Ret false,
            EvPatch (add_member_request base_url bearer group_id user_id)
                    (HttpError e)
            :: EvStderr ("Error adding user to group: " +++ exc_str e)
            :: response_text_line e)
       end) /\
  (forall fuel args,
     add_to_group args = false ->
     action args = create_action ->
     truthy (username args) = true ->
     all_truthy [email args; first_name args; last_name args] = true ->
     is_ok (on_post world h
              (create_user_request (url args) (token args) (the (username args))
                 (the (email args)) (the (first_name args)) (the (last_name args))
                 (external_id args))) = false ->
     exists es,
       main world fuel args h = (Exit 1, es) /\
       List.length (http_requests es) = 1%nat) /\
  (forall fuel args,
     add_to_group args = false ->
     action args = create_action ->
     truthy (username args) = false ->
     truthy (display_name args) = true ->
     is_ok (on_post world h
              (create_group_request (url args) (token args) (the (display_name args))
                 (external_id args) (member_ids_of args))) = false ->
     exists es,
       main world fuel args h = (Exit 1, es) /\
       List.length (http_requests es) = 1%nat).
Proof.
  split.
  { intros. unfold create_user, bind, requests_post, create_user_request,
      print_response_text, response_text_line.
    destruct (on_post world h _) as [e | body]; [| reflexivity].
    destruct (exc_response_text e); reflexivity. }
  split.
  { intros. unfold create_group, bind, requests_post, create_group_request,
      print_response_text, response_text_line.
    destruct (on_post world h _) as [e | body]; [| reflexivity].
    destruct (exc_response_text e); reflexivity. }
  split.
  { intros. unfold add_user_to_group, bind, requests_patch, add_member_request,
      print_response_text, response_text_line.
    destruct (on_patch world h _) as [e | body]; [| reflexivity].
    destruct (exc_response_text e); reflexivity. }
  split.
  - intros fuel args Hmode Hact Huser Hfields Hfail.
    destruct (main_create_user world fuel args h Hmode Hact Huser Hfields)
      as (o & es & Hrun & Hreq & Hexit).
    rewrite (Hexit Hfail) in Hrun. exists es. split; [exact Hrun |].
    now rewrite Hreq.
  - intros fuel args Hmode Hact Huser Hgroup Hfail.
    destruct (main_create_group world fuel args h Hmode Hact Huser Hgroup)
      as (o & es & Hrun & Hreq & Hexit).
    rewrite (Hexit Hfail) in Hrun. exists es. split; [exact Hrun |].
    now rewrite Hreq.
Qed.

(** Creating a user against a backend that rejects the POST: one call,
    exit status 1. *)
Lemma mutation_operations_single_call_witness :
  exists es,
    main read_only_backend 0 create_user_invocation [] = (Exit 1, es) /\
    List.length (http_requests es) = 1%nat.
Proof.
  apply (proj1 (proj2 (proj2 (proj2
           (mutation_operations_single_call read_only_backend demo_url demo_token []))))
         0%nat create_user_invocation); reflexivity.
Defined.

(** C7 as stated fails for add user to group: when the PATCH is
    rejected, [add_user_to_group] returns false and the process ends
    with exit status 0. *)
Lemma failed_membership_exits_zero :
  exists e es es',
    on_patch read_only_backend [] (add_member_request demo_url demo_token "g1" "u1")
      = HttpError e /\
    add_user_to_group read_only_backend demo_url demo_token "g1" "u1" []
      = (Ret false, es') /\
    main read_only_backend 0 add_member_invocation [] = (Exit 0, es) /\
    exit_status (@Exit unit 0) = Some 0.
Proof.
  do 3 eexists. split; [reflexivity |].
  split; [vm_compute; reflexivity |].
  split; [vm_compute; reflexivity | reflexivity].
Qed.

(** * Validation of user creation *)

(** C8.  A run of the create action (the add-to-group mode, which is
    served before any action, not being selected) with a username but
    with any of email, first name or last name missing (or empty) prints
    the validation error and ends with exit status 1 without any network
    call. *)
Theorem create_user_requires_contact_fields world fuel args h :
  add_to_group args = false ->
  action args = create_action ->
  truthy (username args) = true ->
  truthy (email args) = false \/ truthy (first_name args) = false
    \/ truthy (last_name args) = false ->
  main world fuel args h = (Exit 1, [validation_error]) /\
  http_requests [validation_error] = [] /\
  exit_status (@Exit unit 1) = Some 1.
Proof.
  intros Hmode Hact Huser Hmissing.
  assert (Hfields : all_truthy [email args; first_name args; last_name args] = false).
  { unfold all_truthy. cbn [forallb].
    destruct Hmissing as [H | [H | H]]; rewrite H;
      now rewrite ?andb_false_r. }
  unfold main. rewrite Hmode, Hact, Huser, Hfields. repeat split.
Qed.

Lemma create_user_requires_contact_fields_witness :
  main (paginated_backend 3 1000) 0 incomplete_user_invocation []
  = (Exit 1, [validation_error]).
Proof.
  apply (create_user_requires_contact_fields (paginated_backend 3 1000) 0
           incomplete_user_invocation []); try reflexivity.
  left. reflexivity.
Defined.


(** * Further properties of the pager *)

(** X1.  Against a backend that answers every listing request,
    [get_all_resources] returns (for a large enough bound on the loop)
    exactly when the first page advertises a positive stride or a total
    that does not exceed the stride; otherwise no bound suffices. *)
Theorem get_all_resources_returns_iff world base_url token resource_type h first :
  always_answers world ->
  on_get world h (page_request base_url token resource_type 1) = HttpOk first ->
  (exists fuel coll es,
     get_all_resources world fuel base_url token resource_type h = (Ret coll, es))
  <-> (0 < advertised_stride first \/ advertised_total first <= advertised_stride first).
Proof.
  intros Hok Hfirst. split.
  - intros (fuel & coll & es & Hrun).
    destruct (Z.lt_ge_cases 0 (advertised_stride first)) as [Hpos | Hnonpos];
      [now left | right].
    destruct (Z.le_gt_cases (advertised_total first) (advertised_stride first))
      as [Hle | Hgt]; [exact Hle | exfalso].
    rewrite get_all_resources_run, Hfirst in Hrun. cbv zeta in Hrun.
    destruct (fetch_loop_diverges world base_url token resource_type
                (advertised_total first) (advertised_stride first) Hok Hnonpos
                fuel (advertised_stride first + 1) (page_resources first)
                (h ++ [EvGet (page_request base_url token resource_type 1) (HttpOk first);
                       found_msg (advertised_total first) resource_type]))
      as (es' & Hloop & _); [lia |].
    rewrite Hloop in Hrun. discriminate Hrun.
  - intros [Hpos | Hsmall].
    + destruct (get_all_resources_returns world base_url token resource_type h first
                  _ Hok Hfirst Hpos (Nat.le_refl _)) as (coll & es & Hrun & _).
      eauto.
    + exists 1%nat. rewrite get_all_resources_run, Hfirst. cbv zeta.
      rewrite fetch_loop_done by lia. eauto.
Qed.

Lemma get_all_resources_returns_iff_witness :
  (exists fuel coll es,
     get_all_resources (paginated_backend 0 0) fuel demo_url demo_token "Users" []
     = (Ret coll, es)) /\
  ~ (exists fuel coll es,
       get_all_resources (paginated_backend 0 (-1)) fuel demo_url demo_token "Users" []
       = (Ret coll, es)).
Proof.
  split.
  - apply (get_all_resources_returns_iff (paginated_backend 0 0)
             demo_url demo_token "Users" [] _
             (synthetic_always_answers _ _ _ _) eq_refl).
    right. vm_compute. discriminate.
  - intros Hret.
    apply (get_all_resources_returns_iff (paginated_backend 0 (-1))
             demo_url demo_token "Users" [] _
             (synthetic_always_answers _ _ _ _) eq_refl) in Hret.
    vm_compute in Hret. destruct Hret as [H | H]; [discriminate H | now apply H].
Defined.

(** X2.  When the total read off the first page (0 when the key is
    absent) does not exceed the stride read off it (1000 when absent),
    [get_all_resources] makes that one request only and returns the first
    page's Resources as they are, however many the page holds, with
    itemsPerPage set to their number. *)
Theorem single_page_listing world fuel base_url token resource_type h first :
  on_get world h (page_request base_url token resource_type 1) = HttpOk first ->
  advertised_total first <= advertised_stride first ->
  get_all_resources world (S fuel) base_url token resource_type h =
  (Ret {| schemas := Some (get_default (schemas first) []);
          totalResults := Some (advertised_total first);
          Resources := Some (page_resources first);
          itemsPerPage := Some (Z.of_nat (List.length (page_resources first)));
          startIndex := Some 1 |},
   [EvGet (page_request base_url token resource_type 1) (HttpOk first);
    found_msg (advertised_total first) resource_type]).
Proof.
  intros Hfirst Hsmall. rewrite get_all_resources_run, Hfirst. cbv zeta.
  rewrite fetch_loop_done by lia. reflexivity.
Qed.

(** A page that carries two resources but no totalResults and no
    itemsPerPage key is returned as the whole collection. *)
Lemma single_page_listing_witness :
  let bare := {| schemas := None; totalResults := None;
                 Resources := Some [numbered 1; numbered 2];
                 itemsPerPage := None; startIndex := None |} in
  let w := {| on_get := fun _ _ => HttpOk bare;
              on_delete := fun _ _ => HttpOk tt;
              on_post := fun _ _ => HttpOk (numbered 1);
              on_patch := fun _ _ => HttpOk tt;
              stdin := fun _ => None;
              sleep_error := cpython_sleep_error |} in
  exists es,
    get_all_resources w 1 demo_url demo_token "Users" [] =
    (Ret {| schemas := Some []; totalResults := Some 0;
            Resources := Some [numbered 1; numbered 2];
            itemsPerPage := Some 2; startIndex := Some 1 |}, es) /\
    List.length (http_requests es) = 1%nat.
Proof.
  intros bare w. eexists. split.
  - apply (single_page_listing w 0 demo_url demo_token "Users" [] bare eq_refl).
    vm_compute. discriminate.
  - reflexivity.
Defined.

(** The events of a listing are GET requests and progress lines on
    standard error: nothing is written to standard output, nothing is
    read, no other request is made. *)
Lemma fetch_loop_events world base_url token resource_type fuel R P :
  forall cur acc h o es,
    fetch_loop world fuel base_url token resource_type R P cur acc h = (o, es) ->
    forallb listing_event es = true.
Proof.
  induction fuel as [| fuel IH]; intros cur acc h o es H.
  - now injection H as <- <-.
  - destruct (Z.leb_spec cur R) as [Hin | Hout].
    + rewrite fetch_loop_step in H by exact Hin. cbv zeta in H.
      destruct (on_get world _ _) as [e | page]; [now injection H as <- <- |].
      destruct (fetch_loop world fuel _ _ _ _ _ _ _ _) as [o' es'] eqn:E.
      injection H as <- <-. cbn. eapply IH; exact E.
    + rewrite fetch_loop_done in H by exact Hout. now injection H as <- <-.
Qed.

Lemma get_all_resources_events world fuel base_url token resource_type h o es :
  get_all_resources world fuel base_url token resource_type h = (o, es) ->
  forallb listing_event es = true.
Proof.
  intros H. rewrite get_all_resources_run in H.
  destruct (on_get world h _) as [e | first]; [now injection H as <- <- |].
  cbv zeta in H.
  destruct (fetch_loop world fuel _ _ _ _ _ _ _ _) as [o' es'] eqn:E.
  pose proof (fetch_loop_events _ _ _ _ _ _ _ _ _ _ _ _ E) as Hev.
  destruct o'; injection H as <- <-; exact Hev.
Qed.

(** * URLs and member lists *)

Lemma append_cons c s t : String c s +++ t = String c (s +++ t).
Proof. reflexivity. Qed.

Lemma rstrip_slash_append_slash s : rstrip_slash (s +++ "/") = rstrip_slash s.
Proof.
  induction s as [| c s IH]; [reflexivity |].
  rewrite append_cons. cbn [rstrip_slash]. now rewrite IH.
Qed.

Lemma rstrip_slash_no_trailing s : ends_with_slash (rstrip_slash s) = false.
Proof.
  induction s as [| c s IH]; [reflexivity |].
  cbn [rstrip_slash].
  destruct (rstrip_slash s) as [| c' t'] eqn:E.
  - destruct (Ascii.eqb c slash) eqn:Ec; [reflexivity |]. cbn. exact Ec.
  - exact IH.
Qed.

Lemma rstrip_slash_fixed s : ends_with_slash s = false -> rstrip_slash s = s.
Proof.
  induction s as [| c s IH]; intros Hend; [reflexivity |].
  cbn [rstrip_slash]. destruct s as [| c' t].
  - cbn in Hend |- *. now rewrite Hend.
  - rewrite IH by exact Hend. reflexivity.
Qed.

(** X3.  Trailing slashes of the base URL do not matter: every request
    the tool builds is the same with [base_url] and with [base_url]
    followed by a slash; the stripped base never ends with a slash, and a
    base without a trailing slash is used as it is. *)
Theorem requests_ignore_trailing_slash base_url bearer :
  (forall resource_type start_index,
     page_request (base_url +++ "/") bearer resource_type start_index
     = page_request base_url bearer resource_type start_index) /\
  (forall resource_type resource_id,
     delete_request (base_url +++ "/") bearer resource_type resource_id
     = delete_request base_url bearer resource_type resource_id) /\
  (forall username email first_name last_name external_id,
     create_user_request (base_url +++ "/") bearer username email first_name last_name
                         external_id
     = create_user_request base_url bearer username email first_name last_name
                           external_id) /\
  (forall display_name external_id member_ids,
     create_group_request (base_url +++ "/") bearer display_name external_id member_ids
     = create_group_request base_url bearer display_name external_id member_ids) /\
  (forall group_id user_id,
     add_member_request (base_url +++ "/") bearer group_id user_id
     = add_member_request base_url bearer group_id user_id) /\
  ends_with_slash (rstrip_slash base_url) = false /\
  (ends_with_slash base_url = false -> rstrip_slash base_url = base_url).
Proof.
  unfold page_request, delete_request, create_user_request, create_group_request,
    add_member_request, scim_url.
  rewrite rstrip_slash_append_slash.
  repeat split; auto using rstrip_slash_no_trailing, rstrip_slash_fixed.
Qed.

Lemma requests_ignore_trailing_slash_witness :
  rstrip_slash "https://scim.example" = "https://scim.example" /\
  page_request "https://scim.example//" "secret" "Users" 1
  = page_request "https://scim.example" "secret" "Users" 1.
Proof.
  split.
  - apply (requests_ignore_trailing_slash "https://scim.example" "secret").
    reflexivity.
  - change "https://scim.example//" with (("https://scim.example" +++ "/") +++ "/").
    rewrite (proj1 (requests_ignore_trailing_slash ("https://scim.example" +++ "/")
                      "secret")).
    apply (requests_ignore_trailing_slash "https://scim.example" "secret").
Defined.

Lemma split_comma_nonempty s : split_comma s <> [].
Proof.
  destruct s as [| c t]; cbn; [discriminate |].
  destruct (Ascii.eqb c comma); [discriminate |].
  destruct (split_comma t); discriminate.
Qed.

Lemma split_comma_join s : String.concat "," (split_comma s) = s.
Proof.
  induction s as [| c t IH]; [reflexivity |].
  cbn [split_comma]. pose proof (split_comma_nonempty t) as Hne.
  destruct (Ascii.eqb_spec c comma) as [-> | Hc].
  - destruct (split_comma t) as [| p ps]; [contradiction |].
    change (String.concat "," ("" :: p :: ps))
      with (String comma (String.concat "," (p :: ps))).
    now rewrite IH.
  - destruct (split_comma t) as [| p ps]; [contradiction |].
    destruct ps as [| q qs].
    + cbn in IH |- *. now rewrite IH.
    + change (String.concat "," (String c p :: q :: qs))
        with (String c (String.concat "," (p :: q :: qs))).
      now rewrite IH.
Qed.

Lemma split_comma_pieces s : forall p, In p (split_comma s) -> has_comma p = false.
Proof.
  induction s as [| c t IH]; intros p Hin.
  - destruct Hin as [<- | []]. reflexivity.
  - cbn [split_comma] in Hin.
    destruct (Ascii.eqb c comma) eqn:Ec.
    + destruct Hin as [<- | Hin]; [reflexivity | now apply IH].
    + destruct (split_comma t) as [| q qs].
      * destruct Hin as [<- | []]. cbn. now rewrite Ec.
      * destruct Hin as [<- | Hin].
        -- cbn. rewrite Ec. apply IH. now left.
        -- apply IH. now right.
Qed.

(** X4.  The member list of a new group is the [--members] string cut at
    its commas: joining the pieces with commas gives the string back, no
    piece contains a comma, and there is at least one piece, so a
    non-empty [--members] always reaches the payload, empty pieces (from
    a doubled or trailing comma) included. *)
Theorem members_split_at_commas args m :
  members args = Some m ->
  m <> "" ->
  member_ids_of args = Some (split_comma m) /\
  String.concat "," (split_comma m) = m /\
  (forall p, In p (split_comma m) -> has_comma p = false) /\
  create_group_request (url args) (token args) (the (display_name args))
                       (external_id args) (member_ids_of args)
  = POST (rstrip_slash (url args) +++ "/api/v2/scim/Groups") (json_headers (token args))
         (GroupPayload (the (display_name args)) (external_id args)
                       (Some (split_comma m))).
Proof.
  intros Hm Hne.
  assert (Hids : member_ids_of args = Some (split_comma m)).
  { unfold member_ids_of, truthy, the. rewrite Hm. cbn [get_default].
    apply String.eqb_neq in Hne. now rewrite Hne. }
  split; [exact Hids |].
  split; [apply split_comma_join |].
  split; [apply split_comma_pieces |].
  unfold create_group_request. rewrite Hids.
  pose proof (split_comma_nonempty m) as Hsplit.
  destruct (split_comma m); [contradiction | reflexivity].
Qed.

Lemma members_split_at_commas_witness :
  member_ids_of create_group_invocation = Some ["u1"; "u2"; ""].
Proof.
  apply (members_split_at_commas create_group_invocation "u1,u2," eq_refl).
  discriminate.
Defined.

(** * Further properties of the command-line driver *)


Lemma resource_ids_of_run rs : forall h,
  resource_ids_of rs h =
  (match ids_of rs with Some l => Ret l | None => Raise (KeyError "id") end, []).
Proof.
  induction rs as [| r rest IH]; intros h; [reflexivity |].
  cbn [resource_ids_of ids_of]. destruct (res_id r) as [i |]; [| reflexivity].
  unfold bind. rewrite IH. destruct (ids_of rest); reflexivity.
Qed.

Lemma read_only_events_observed es :
  forallb read_only_event es = true ->
  (forall r, In r (http_requests es) -> is_get r = true) /\
  inputs_of es = [] /\ sleeps es = [] /\ delete_responses es = [].
Proof.
  induction es as [| e es IH]; intros Hall; [repeat split; intros r [] |].
  cbn [forallb] in Hall. apply andb_true_iff in Hall. destruct Hall as (He & Hes).
  destruct (IH Hes) as (Hget & Hin & Hsl & Hdel).
  unfold read_only_event in He.
  destruct e; try discriminate He; cbn; repeat split; try assumption.
  intros r [<- | Hr]; [| now apply Hget].
  cbn in He. now rewrite orb_false_r in He.
Qed.

Lemma listing_events_read_only es :
  forallb listing_event es = true ->
  forallb read_only_event es = true /\ stdout_of es = [].
Proof.
  induction es as [| e es IH]; intros Hall; [split; reflexivity |].
  cbn [forallb] in Hall. apply andb_true_iff in Hall. destruct Hall as (He & Hes).
  destruct (IH Hes) as (Hro & Hout). split.
  - cbn [forallb]. rewrite Hro. unfold read_only_event. now rewrite He.
  - destruct e; try discriminate He; exact Hout.
Qed.

Lemma stdout_events_read_only es :
  forallb stdout_event es = true -> forallb read_only_event es = true.
Proof.
  induction es as [| e es IH]; intros Hall; [reflexivity |].
  cbn [forallb] in Hall |- *. apply andb_true_iff in Hall. destruct Hall as (He & Hes).
  rewrite (IH Hes). unfold read_only_event. now rewrite He, orb_true_r.
Qed.

Lemma print_resources_events t rs : forall h o es,
  print_resources t rs h = (o, es) -> forallb stdout_event es = true.
Proof.
  induction rs as [| r rest IH]; intros h o es H.
  - now injection H as <- <-.
  - cbn [print_resources] in H. unfold bind at 1 in H.
    assert (Hitem : exists o1 es1,
              match t with
              | Users => (text <- format_user r ;; print text)%prog
              | Groups => print (format_group r)
              end h = (o1, es1) /\ forallb stdout_event es1 = true).
    { destruct t; [| eexists; eexists; split; reflexivity].
      unfold bind. pose proof (format_user_quiet r h) as Hq.
      destruct (format_user r h) as [[text | c | x |] es0]; cbn in Hq; subst es0;
        eexists; eexists; split; reflexivity. }
    destruct Hitem as (o1 & es1 & Hrun & Hev). rewrite Hrun in H.
    destruct o1 as [[] | c | x |]; try (injection H as <- <-; exact Hev).
    unfold bind at 1 in H. cbn [print emit] in H.
    destruct (print_resources t rest _) as [o2 es2] eqn:E.
    injection H as <- <-. rewrite forallb_app, Hev. cbn.
    eapply IH. exact E.
Qed.




(** X5.  Usage errors are reported on standard output and end the
    process with exit status 1 before anything else happens: no request
    is sent and nothing is read.  This holds for the add-to-group mode
    without a user id or group id, for the create action with neither a
    username nor a display name, and for list and delete without a
    resource type. *)
Theorem usage_errors_touch_nothing world fuel args h :
  (add_to_group args = true ->
   all_truthy [user_id args; group_id args] = false ->
   main world fuel args h =
   (Exit 1, [EvStdout "Error: --user-id and --group-id are required for adding user to group"])) /\
  (add_to_group args = false ->
   action args = create_action ->
   truthy (username args) = false ->
   truthy (display_name args) = false ->
   main world fuel args h =
   (Exit 1, [EvStdout "Error: For create action, either provide --username (for user) or --display-name (for group)"])) /\
  (add_to_group args = false ->
   action args <> create_action ->
   type args = None ->
   main world fuel args h =
   (Exit 1, [EvStdout "Error: --type is required for list and delete operations"])).
Proof.
  repeat split.
  - intros Hmode Hids. unfold main. now rewrite Hmode, Hids.
  - intros Hmode Hact Huser Hgroup. unfold main.
    now rewrite Hmode, Hact, Huser, Hgroup.
  - intros Hmode Hact Htype. unfold main. rewrite Hmode, Htype.
    destruct (action args); [reflexivity | reflexivity | contradiction].
Qed.

Lemma usage_errors_touch_nothing_witness :
  main read_only_backend 0
       {| url := demo_url; token := demo_token; format := json; type := None;
          action := delete_action; id := Some "2"; delay := default_delay;
          username := None; email := None; first_name := None; last_name := None;
          display_name := None; external_id := None; members := None;
          add_to_group := false; user_id := None; group_id := None |} []
  = (Exit 1, [EvStdout "Error: --type is required for list and delete operations"]).
Proof.
  apply (proj2 (proj2 (usage_errors_touch_nothing read_only_backend 0 _ []))).
  - reflexivity.
  - discriminate.
  - reflexivity.
Defined.


(** X6.  Deleting a whole collection needs the operator's consent: in a
    run of the delete action without [--id], any request at all, the
    listing included, is sent only after the line read at the prompt was
    [yes] in some capitalisation. *)
Theorem delete_all_requires_confirmation world fuel args h o es :
  add_to_group args = false ->
  action args = delete_action ->
  truthy (id args) = false ->
  main world fuel args h = (o, es) ->
  http_requests es <> [] ->
  exists line, stdin world h = Some line /\ lower line = "yes".
Proof.
  intros Hmode Hact Hid H Hreq.
  unfold main in H. rewrite Hmode, Hact, Hid in H.
  destruct (type args) as [t |]; [| injection H as <- <-; now contradiction Hreq].
  cbn [andb negb orb] in H.
  unfold bind at 1 in H. unfold bind at 1 in H. unfold input at 1 in H.
  destruct (stdin world h) as [line |];
    [| injection H as <- <-; now contradiction Hreq].
  exists line. split; [reflexivity |].
  destruct (String.eqb_spec (lower line) "yes") as [Hyes | Hno]; [exact Hyes |].
  cbn in H. injection H as <- <-. now contradiction Hreq.
Qed.

Lemma delete_all_requires_confirmation_witness :
  exists line,
    stdin (with_answer (paginated_backend 3 1000) "YES") [] = Some line /\
    lower line = "yes".
Proof.
  destruct (main (with_answer (paginated_backend 3 1000) "YES") 1
              delete_all_invocation []) as [o es] eqn:E.
  apply (delete_all_requires_confirmation (with_answer (paginated_backend 3 1000) "YES")
           1 delete_all_invocation [] o es eq_refl eq_refl eq_refl E).
  replace es with (snd (main (with_answer (paginated_backend 3 1000) "YES") 1
                          delete_all_invocation [])) by now rewrite E.
  vm_compute. discriminate.
Defined.


(** The delete-all branch once the operator has consented and the
    listing has returned. *)
Lemma main_delete_all_confirmed world fuel args h t line coll es1 :
  add_to_group args = false ->
  action args = delete_action ->
  truthy (id args) = false ->
  type args = Some t ->
  stdin world h = Some line ->
  lower line = "yes" ->
  get_all_resources world fuel (url args) (token args) (type_str t)
    (h ++ [EvInput (confirm_prompt t) (Some line)]) = (Ret coll, es1) ->
  main world fuel args h =
    let (o, es') :=
      (resource_ids <- resource_ids_of (page_resources coll) ;;
       results <- delete_resources world (url args) (token args) (type_str t)
                                   resource_ids (delay args) ;;
       print (newline +++ "Deletion Summary:") ;;
       print ("Successfully deleted: " +++ str_of_Z (count_successful results)) ;;
       print ("Failed to delete: "
              +++ str_of_Z (Z.of_nat (List.length results) - count_successful results)) ;;
       match format args with
       | json => print_json (DumpDict results)
       | pretty => ret tt
       end)%prog ((h ++ [EvInput (confirm_prompt t) (Some line)]) ++ es1) in
    (o, EvInput (confirm_prompt t) (Some line) :: es1 ++ es').
Proof.
  intros Hmode Hact Hid Htype Hin Hyes Hlist.
  unfold main. rewrite Hmode, Hact, Htype, Hid. cbn [andb negb orb].
  fold (confirm_prompt t).
  unfold bind at 1. unfold bind at 1. unfold input at 1. rewrite Hin, Hyes.
  cbn [String.eqb Ascii.eqb Bool.eqb negb ret app].
  unfold bind at 1. rewrite Hlist. unfold page_resources.
  destruct (bind _ _ _) as [o' es']. reflexivity.
Qed.

(** X7.  In a confirmed delete-all, the identifiers are read off every
    listed record before the first deletion: if any listed record has no
    [id], the process ends with [KeyError: 'id'] and not a single DELETE
    has been sent. *)
Theorem delete_all_needs_every_id world fuel args h t line coll es1 :
  add_to_group args = false ->
  action args = delete_action ->
  truthy (id args) = false ->
  type args = Some t ->
  stdin world h = Some line ->
  lower line = "yes" ->
  get_all_resources world fuel (url args) (token args) (type_str t)
    (h ++ [EvInput (confirm_prompt t) (Some line)]) = (Ret coll, es1) ->
  ids_of (page_resources coll) = None ->
  main world fuel args h
  = (Raise (KeyError "id"), EvInput (confirm_prompt t) (Some line) :: es1) /\
  delete_responses (EvInput (confirm_prompt t) (Some line) :: es1) = [].
Proof.
  intros Hmode Hact Hid Htype Hin Hyes Hlist Hnone.
  pose proof (get_all_resources_events _ _ _ _ _ _ _ _ Hlist) as Hev.
  apply listing_events_read_only in Hev. destruct Hev as (Hro & _).
  apply read_only_events_observed in Hro. destruct Hro as (_ & _ & _ & Hnodel).
  rewrite (main_delete_all_confirmed world fuel args h t line coll es1)
    by assumption.
  unfold bind at 1. rewrite resource_ids_of_run, Hnone.
  rewrite app_nil_r. split; [reflexivity | exact Hnodel].
Qed.

Lemma delete_all_needs_every_id_witness :
  exists es,
    main backend_with_anonymous 1 delete_all_invocation [] = (Raise (KeyError "id"), es) /\
    delete_responses es = [].
Proof.
  eassert (Hlist :
    get_all_resources backend_with_anonymous 1
      demo_url demo_token "Users" [EvInput (confirm_prompt Users) (Some "yes")]
    = (Ret _, _)) by (vm_compute; reflexivity).
  eexists.
  exact (delete_all_needs_every_id backend_with_anonymous 1 delete_all_invocation []
           Users "yes" _ _ eq_refl eq_refl eq_refl eq_refl eq_refl eq_refl Hlist eq_refl).
Defined.




(** X9.  Deleting one resource by [--id] sends exactly one DELETE, for
    that id, without listing anything and without asking for
    confirmation; the process ends normally (exit status 0) whether the
    deletion succeeded or failed, and says which on standard output. *)
Theorem single_deletion world fuel args h t :
  add_to_group args = false ->
  action args = delete_action ->
  truthy (id args) = true ->
  type args = Some t ->
  exists es,
    main world fuel args h = (Ret tt, es) /\
    http_requests es = [delete_request (url args) (token args) (type_str t) (the (id args))] /\
    inputs_of es = [] /\
    stdout_of es =
      [EvStdout (type_singular t +++ " " +++ the (id args) +++ " deletion: "
                 +++ (if is_ok (on_delete world h
                                  (delete_request (url args) (token args) (type_str t)
                                                  (the (id args))))
                      then "successful" else "failed"))].
Proof.
  intros Hmode Hact Hid Htype.
  unfold main. rewrite Hmode, Hact, Hid, Htype. cbn [andb negb orb].
  unfold bind at 1. cbn [ret app]. rewrite app_nil_r.
  unfold bind at 1. rewrite delete_resource_run. cbv zeta.
  eexists. split; [reflexivity |].
  destruct (on_delete world h _); repeat split.
Qed.

Lemma single_deletion_witness :
  exists es,
    main (synthetic 3 1000 never
            (String.eqb "https://scim.example/api/v2/scim/Users/2") false)
         0 delete_one_invocation [] = (Ret tt, es) /\
    http_requests es = [delete_request demo_url demo_token "Users" "2"] /\
    stdout_of es = [EvStdout "User 2 deletion: failed"].
Proof.
  destruct (single_deletion
              (synthetic 3 1000 never
                 (String.eqb "https://scim.example/api/v2/scim/Users/2") false)
              0 delete_one_invocation [] Users eq_refl eq_refl eq_refl eq_refl)
    as (es & Hrun & Hreq & _ & Hout).
  exists es. repeat split; assumption.
Defined.


(** X10.  The list action only reads: every request of the run is a GET,
    nothing is deleted, no pause is made and nothing is read from
    standard input, whatever the other options (an [--id] given with the
    list action is ignored). *)
Theorem listing_is_read_only world fuel args h o es :
  add_to_group args = false ->
  action args = list_action ->
  main world fuel args h = (o, es) ->
  (forall r, In r (http_requests es) -> is_get r = true) /\
  inputs_of es = [] /\ sleeps es = [] /\ delete_responses es = [].
Proof.
  intros Hmode Hact H. apply read_only_events_observed.
  unfold main in H. rewrite Hmode, Hact in H.
  destruct (type args) as [t |]; [| now injection H as <- <-].
  cbn [andb orb] in H. unfold bind at 1 in H. cbn [ret app] in H.
  rewrite app_nil_r in H. unfold bind at 1 in H.
  destruct (get_all_resources world fuel _ _ _ h) as [o1 es1] eqn:E.
  pose proof (get_all_resources_events _ _ _ _ _ _ _ _ E) as Hev.
  apply listing_events_read_only in Hev. destruct Hev as (Hro & _).
  destruct o1 as [coll | c | x |]; try (injection H as <- <-; exact Hro).
  destruct (format args).
  - unfold bind at 1 in H. cbn [print emit] in H.
    destruct (print_resources t _ _) as [o2 es2] eqn:P.
    apply print_resources_events in P. apply stdout_events_read_only in P.
    injection H as <- <-. rewrite forallb_app, Hro. cbn. exact P.
  - injection H as <- <-. rewrite forallb_app, Hro. reflexivity.
Qed.

Lemma listing_is_read_only_witness :
  exists o es,
    main (paginated_backend 250 100) 3 (list_invocation pretty) [] = (o, es) /\
    map is_get (http_requests es) = [true; true; true] /\
    delete_responses es = [].
Proof.
  destruct (main (paginated_backend 250 100) 3 (list_invocation pretty) [])
    as [o es] eqn:E.
  destruct (listing_is_read_only (paginated_backend 250 100) 3
              (list_invocation pretty) [] o es eq_refl eq_refl E)
    as (_ & _ & _ & Hdel).
  exists o, es. split; [reflexivity |]. split; [| exact Hdel].
  replace es with (snd (main (paginated_backend 250 100) 3 (list_invocation pretty) []))
    by now rewrite E.
  vm_compute. reflexivity.
Defined.


(** X11.  With [--format json] the list action writes to standard output
    the aggregated collection and nothing else (progress and errors go to
    standard error); when the listing does not return, standard output
    stays empty and the process does not end normally. *)
Theorem json_listing_stdout world fuel args h t o es :
  add_to_group args = false ->
  action args = list_action ->
  type args = Some t ->
  format args = json ->
  main world fuel args h = (o, es) ->
  match fst (get_all_resources world fuel (url args) (token args) (type_str t) h) with
  | Ret coll => o = Ret tt /\ stdout_of es = [EvStdoutJson (DumpPage coll)]
  | _ => o <> Ret tt /\ stdout_of es = []
  end.
Proof.
  intros Hmode Hact Htype Hfmt H.
  unfold main in H. rewrite Hmode, Hact, Htype, Hfmt in H.
  cbn [andb orb] in H. unfold bind at 1 in H. cbn [ret app] in H.
  rewrite app_nil_r in H. unfold bind at 1 in H.
  destruct (get_all_resources world fuel _ _ _ h) as [o1 es1] eqn:E.
  pose proof (get_all_resources_events _ _ _ _ _ _ _ _ E) as Hev.
  apply listing_events_read_only in Hev. destruct Hev as (_ & Hquiet).
  cbn [fst].
  destruct o1 as [coll | c | x |]; injection H as <- <-;
    try (split; [discriminate | exact Hquiet]).
  split; [reflexivity |].
  unfold stdout_of. rewrite filter_app. fold (stdout_of es1). now rewrite Hquiet.
Qed.

Lemma json_listing_stdout_witness :
  exists o es,
    main (synthetic 2500 1000 (Z.eqb 1001%Z) never false) 3 (list_invocation json) []
    = (o, es) /\
    o <> Ret tt /\ stdout_of es = [].
Proof.
  destruct (main (synthetic 2500 1000 (Z.eqb 1001%Z) never false) 3
              (list_invocation json) []) as [o es] eqn:E.
  pose proof (json_listing_stdout (synthetic 2500 1000 (Z.eqb 1001%Z) never false) 3
                (list_invocation json) [] Groups o es eq_refl eq_refl eq_refl eq_refl E)
    as H.
  vm_compute in H. exists o, es. split; [reflexivity | exact H].
Defined.





(** X13.  When [time.sleep] refuses the delay (a negative length with
    [ValueError], a length beyond its range with [OverflowError]),
    [delete_resources] on two or more identifiers stops after the first
    one: the first DELETE is sent, the pause that follows raises, no
    further identifier is attempted, no pause is made and no outcome
    mapping is returned. *)
Theorem refused_delay_stops_after_first
    world base_url token resource_type id1 id2 rest delay exc h :
  sleep_error world delay = Some exc ->
  exists es,
    delete_resources world base_url token resource_type (id1 :: id2 :: rest) delay h
    = (Raise exc, es) /\
    http_requests es = [delete_request base_url token resource_type id1] /\
    sleeps es = [].
Proof.
  intros Hrefused.
  unfold delete_resources. cbn [delete_loop].
  unfold bind at 1. cbn [print_stderr emit].
  unfold bind at 1. rewrite delete_resource_run. cbv zeta.
  unfold bind at 1.
  assert (Hlt : (1 <? Z.of_nat (List.length (id1 :: id2 :: rest)))%Z = true)
    by (apply Z.ltb_lt; cbn [List.length]; lia).
  rewrite Hlt. unfold time_sleep. rewrite Hrefused.
  eexists. split; [reflexivity |].
  destruct (on_delete world _ _); split; reflexivity.
Qed.

Lemma refused_delay_stops_after_first_witness :
  (exists es,
     delete_resources (paginated_backend 3 1000) demo_url demo_token "Users"
                      ["1"; "2"; "3"] (- 1 # 2) [] = (Raise ValueError, es) /\
     http_requests es = [delete_request demo_url demo_token "Users" "1"] /\
     sleeps es = []) /\
  (exists es,
     delete_resources (paginated_backend 3 1000) demo_url demo_token "Users"
                      ["1"; "2"; "3"] (10000000000 # 1) [] = (Raise OverflowError, es) /\
     http_requests es = [delete_request demo_url demo_token "Users" "1"] /\
     sleeps es = []).
Proof.
  split.
  - apply (refused_delay_stops_after_first (paginated_backend 3 1000)
             demo_url demo_token "Users" "1" "2" ["3"] (- 1 # 2) ValueError []).
    reflexivity.
  - apply (refused_delay_stops_after_first (paginated_backend 3 1000)
             demo_url demo_token "Users" "1" "2" ["3"] (10000000000 # 1)
             OverflowError []).
    reflexivity.
Defined.

(** X14.  In the add-to-group mode with both identifiers given, [main]
    sends exactly one PATCH, whatever action, resource type or other
    option accompanies the flag, reports on standard output whether the
    user was added, and ends with exit status 0 in both cases. *)
Theorem add_to_group_mode world fuel args h :
  add_to_group args = true ->
  all_truthy [user_id args; group_id args] = true ->
  exists es,
    main world fuel args h = (Exit 0, es) /\
    http_requests es =
      [add_member_request (url args) (token args) (the (group_id args))
         (the (user_id args))] /\
    stdout_of es =
      [EvStdout ((if is_ok (on_patch world h
                              (add_member_request (url args) (token args)
                                 (the (group_id args)) (the (user_id args))))
                  then "Successfully added user " else "Failed to add user ")
                 +++ the (user_id args) +++ " to group " +++ the (group_id args))].
Proof.
  intros Hmode Hids.
  unfold main. rewrite Hmode, Hids. cbn [negb].
  unfold bind at 1.
  unfold add_user_to_group, bind at 1, requests_patch, print_response_text.
  fold (add_member_request (url args) (token args) (the (group_id args))
          (the (user_id args))).
  destruct (on_patch world h _) as [e | body].
  - destruct (exc_response_text e); eexists; repeat split.
  - eexists; repeat split.
Qed.

Lemma add_to_group_mode_witness :
  exists es,
    main read_only_backend 0 mixed_invocation [] = (Exit 0, es) /\
    stdout_of es = [EvStdout "Failed to add user u1 to group g1"].
Proof.
  destruct (add_to_group_mode read_only_backend 0 mixed_invocation [] eq_refl eq_refl)
    as (es & Hrun & _ & Hout).
  exists es. split; assumption.
Defined.


